(** * myks-gallery: thumbnail engine and protected media server

    A shallow embedding of [gallery/imgutil.py] and of the serving half of
    [gallery/views.py].  Python exceptions are an explicit [result] type,
    the filesystem is a finite map from paths to nodes, Django's settings
    object is a record, and the library calls the code relies on (PIL's
    decoder, resampler and encoder, [mimetypes.guess_type], Django's
    [was_modified_since] and [http_date], [unicodedata.normalize]) are
    fields of a record of collaborators, so that every statement below holds
    for any behaviour of those libraries. *)

From Stdlib Require Import ZArith List String Ascii Bool Lia.
From stdpp Require Import base option list gmap strings.

Import ListNotations.

(** ** Python: exceptions, results, indexing *)

Module Py.

Inductive exn : Type :=
| IOError
| OSError
| NameError (name : string)
| TypeError
| IndexError
| KeyError
| AttributeError
| ValueError (msg : string)
| Http404 (msg : string)
| ZeroDivisionError
| UnicodeDecodeError.

Definition is_IOError (e : exn) : bool :=
  match e with IOError => true | _ => false end.

Inductive result (A : Type) : Type :=
| Ok (a : A)
| Raise (e : exn).
Arguments Ok {A} a.
Arguments Raise {A} e.

(** Sequencing: an exception raised by the first statement skips the
    rest.  Registered as stdpp's bind, so [x ← c; k] reads as two
    statements. *)
#[export] Instance result_bind : MBind result := fun A B k r =>
  match r with
  | Ok a => k a
  | Raise e => Raise e
  end.
#[export] Instance result_ret : MRet result := fun A a => Ok a.

(** The objects an EXIF value can decode to: an integer (Python [int] or
    [long]), or something that is no valid sequence index (a string, a
    tuple, a rational, a float). *)
Inductive pyobj : Type :=
| PyInt (n : Z)
| PyOther (repr : string).

(** [t[i]] on a tuple: a negative index counts from the end, an index
    out of range raises [IndexError], a non-integer raises [TypeError]. *)
Definition tuple_getitem {A} (t : list A) (i : pyobj) : result A :=
  match i with
  | PyOther _ => Raise TypeError
  | PyInt n =>
      let len := Z.of_nat (length t) in
      let j := if (n <? 0)%Z then (n + len)%Z else n in
      if ((0 <=? j) && (j <? len))%Z
      then match nth_error t (Z.to_nat j) with
           | Some x => Ok x
           | None => Raise IndexError
           end
      else Raise IndexError
  end.

(** [f(x)] where [f] may be [None]: calling [None] raises [TypeError]. *)
Definition call {A B} (f : option (A -> B)) (x : A) : result B :=
  match f with
  | Some g => Ok (g x)
  | None => Raise TypeError
  end.

(** [a // b] on integers: floor division, which is [Z.div] for every sign
    of the operands; a zero divisor raises. *)
Definition floordiv (a b : Z) : result Z :=
  if (b =? 0)%Z then Raise ZeroDivisionError else Ok (a / b)%Z.

(** Truth value of a string: the empty string is false. *)
Definition truthy (s : string) : bool :=
  match s with EmptyString => false | _ => true end.

End Py.

Export Py.

(** ** PIL: images as pixel matrices *)

Module Image.

(** A pixel is the packed band value PIL keeps per cell; [blank] is what
    [crop] pads with outside the source. *)
Definition pixel : Type := Z.
Definition blank : pixel := 0%Z.

(** What [_getexif()] does on an image: it raises, it returns [None]
    (no EXIF segment), or it returns the tag dictionary. *)
Inductive getexif_result : Type :=
| ExifRaises (e : exn)
| ExifNone
| ExifDict (tags : gmap Z pyobj).

Record image : Type := mkImage {
  format : option string;
  width : nat;
  height : nat;
  rows : list (list pixel);
  _getexif : getexif_result
}.

(** [image.size] *)
Definition size (im : image) : Z * Z :=
  (Z.of_nat (width im), Z.of_nat (height im)).

(** The matrix has [height] rows of [width] pixels. *)
Definition wf (im : image) : Prop :=
  length (rows im) = height im /\
  Forall (fun r => length r = width im) (rows im).

(** Two images show the same picture: same size, same pixels. *)
Definition same_pixels (a b : image) : Prop :=
  width a = width b /\ height a = height b /\ rows a = rows b.

(** Images derived by [transpose] and [crop] are plain [Image] objects:
    their [format] is [None] and they have no [_getexif]. *)
Definition new_image (w h : nat) (m : list (list pixel)) : image :=
  {| format := None; width := w; height := h; rows := m;
     _getexif := ExifRaises AttributeError |}.

(** Columns of a matrix of [w]-wide rows, first column first. *)
Fixpoint columns (w : nat) (m : list (list pixel)) : list (list pixel) :=
  match m with
  | [] => repeat [] w
  | r :: m' => zip_with cons r (columns w m')
  end.

Inductive method : Type :=
| FLIP_LEFT_RIGHT
| FLIP_TOP_BOTTOM
| ROTATE_90
| ROTATE_180
| ROTATE_270.

(** [image.transpose(method)].  [ROTATE_90] turns counter-clockwise: row
    [i] of the result is column [width-1-i] of the source read downwards;
    [ROTATE_270] turns clockwise: row [i] is column [i] read upwards. *)
Definition transpose (im : image) (m : method) : image :=
  match m with
  | FLIP_LEFT_RIGHT =>
      new_image (width im) (height im) (map (@rev pixel) (rows im))
  | FLIP_TOP_BOTTOM =>
      new_image (width im) (height im) (rev (rows im))
  | ROTATE_180 =>
      new_image (width im) (height im) (rev (map (@rev pixel) (rows im)))
  | ROTATE_90 =>
      new_image (height im) (width im) (rev (columns (width im) (rows im)))
  | ROTATE_270 =>
      new_image (height im) (width im)
                (map (@rev pixel) (columns (width im) (rows im)))
  end.

Definition getpixel (im : image) (x y : Z) : pixel :=
  if ((0 <=? x) && (0 <=? y))%Z
  then nth (Z.to_nat x) (nth (Z.to_nat y) (rows im) []) blank
  else blank.

(** [image.crop((left, upper, right, lower))]: the result has size
    [(right-left, lower-upper)], clamped at zero, and is padded with
    [blank] where the box leaves the source. *)
Definition crop (im : image) (box : Z * Z * Z * Z) : image :=
  let '(x0, y0, x1, y1) := box in
  let w := Z.to_nat (x1 - x0) in
  let h := Z.to_nat (y1 - y0) in
  new_image w h
    (map (fun j => map (fun i => getpixel im (x0 + Z.of_nat i) (y0 + Z.of_nat j))
                       (seq 0 w))
         (seq 0 h)).

End Image.

(** ** The filesystem, as [os] and [stat] see it *)

Module Os.

(** [st_mtime] is a count of seconds since the epoch; the code never
    computes with it, it only hands it to [was_modified_since] and
    [http_date]. *)
Record stat_result : Type := mkStat {
  st_mode : Z;
  st_mtime : Z;
  st_size : Z
}.

(** A node is what a path names: its metadata, the bytes a reader gets
    (a Python 2 [str], that is a string of 8-bit characters), and whether
    the process can open it for reading at all: a directory cannot be, nor
    can a file whose permissions refuse it, though both exist. *)
Record node : Type := mkNode {
  st : stat_result;
  data : string;
  readable : bool
}.

Abbreviation filesystem := (gmap string node).

(** [os.path.exists(path)] *)
Definition path_exists (fs : filesystem) (path : string) : bool :=
  match fs !! path with Some _ => true | None => false end.

(** [os.stat(path)] *)
Definition stat (fs : filesystem) (path : string) : result stat_result :=
  match fs !! path with
  | Some n => Ok (st n)
  | None => Raise OSError
  end.

(** [open(path, 'rb').read()]: [open] raises [IOError] on a path that
    does not exist and on one that cannot be opened for reading. *)
Definition read (fs : filesystem) (path : string) : result string :=
  match fs !! path with
  | Some n => if readable n then Ok (data n) else Raise IOError
  | None => Raise IOError
  end.

(** [os.unlink(path)] *)
Definition unlink (fs : filesystem) (path : string) : result filesystem :=
  match fs !! path with
  | Some _ => Ok (delete path fs)
  | None => Raise OSError
  end.

(** [stat.S_ISREG(mode)]: [S_IFMT(mode) == S_IFREG]. *)
Definition S_IFMT (mode : Z) : Z := Z.land mode 61440.
Definition S_IFREG : Z := 32768.
Definition S_IFIFO : Z := 4096.
Definition S_ISREG (mode : Z) : bool := (S_IFMT mode =? S_IFREG)%Z.

End Os.

(** ** Django: settings, requests, responses *)

Module Django.

(** Encoder options of one image format, such as [quality]. *)
Abbreviation options := (gmap string Z).

Record settings : Type := mkSettings {
  DEBUG : bool;
  SENDFILE_ROOT : string;
  SENDFILE_HEADER : string;
  PHOTO_SAVE_OPTIONS : gmap string options
}.

End Django.

(** ** gallery/imgutil.py *)

Module Imgutil.
Import Image Os Django.

(** The parts of PIL that are no pixel permutation: the decoder behind
    [Image.open], the resampler behind [image.thumbnail(size, ANTIALIAS)]
    and the encoder behind [image.save]. *)
Inductive save_outcome : Type :=
| Written (n : node)
| Failed (e : exn) (partial : option node).

Record pil : Type := mkPil {
  decode : node -> result image;
  thumbnail : image -> Z * Z -> image;
  save : image -> string -> options -> save_outcome
}.

(** [Image.open(path)] *)
Definition open (lib : pil) (fs : filesystem) (path : string) : result image :=
  match fs !! path with
  | Some n => decode lib n
  | None => Raise IOError
  end.

(** The names bound at module level: the [__future__] import, [Image],
    [settings] and the module's two definitions.  Any other global that
    is no builtin raises [NameError] when it is looked up. *)
Definition globals : list string :=
  ["division"; "Image"; "settings"; "exif_rotations"; "make_thumbnail"]%string.

Definition load_global (name : string) : result unit :=
  if bool_decide (name ∈ globals) then Ok tt else Raise (NameError name).

Definition exif_rotations : list (option (image -> image)) :=
  [ None;
    Some (fun image => image);
    Some (fun image => transpose image FLIP_LEFT_RIGHT);
    Some (fun image => transpose image ROTATE_180);
    Some (fun image => transpose image FLIP_TOP_BOTTOM);
    Some (fun image => transpose (transpose image ROTATE_270) FLIP_LEFT_RIGHT);
    Some (fun image => transpose image ROTATE_270);
    Some (fun image => transpose (transpose image ROTATE_90) FLIP_LEFT_RIGHT);
    Some (fun image => transpose image ROTATE_90) ].

(** [image._getexif()[274]] *)
Definition read_orientation (image : Image.image) : result pyobj :=
  match _getexif image with
  | ExifRaises e => Raise e
  | ExifNone => Raise TypeError
  | ExifDict tags =>
      match tags !! 274%Z with
      | Some v => Ok v
      | None => Raise KeyError
      end
  end.

(** The body of the [try]: both statements, either of which may raise. *)
Definition rotate_by_exif (image : Image.image) : result Image.image :=
  orientation ← read_orientation image;
  rotation ← tuple_getitem exif_rotations orientation;
  call rotation image.

(** The auto-rotate step: JPEG only, and [except Exception: pass] keeps
    the image as it was when anything in the [try] raised. *)
Definition auto_rotate (image : Image.image) : Image.image :=
  if bool_decide (format image = Some "JPEG"%string)
  then match rotate_by_exif image with
       | Ok rotated => rotated
       | Raise _ => image
       end
  else image.

(** The box the pre-crop step passes to [image.crop], or [None] when the
    aspect ratios match. *)
Definition precrop_box (size image_size : Z * Z)
  : result (option (Z * Z * Z * Z)) :=
  let '(thumb_width, thumb_height) := size in
  let '(image_width, image_height) := image_size in
  if (thumb_width * image_height >? image_width * thumb_height)%Z then
    target_height ← floordiv (image_width * thumb_height) thumb_width;
    top ← floordiv (image_height - target_height) 2;
    Ok (Some (0, top, image_width, top + target_height))%Z
  else if (thumb_width * image_height <? image_width * thumb_height)%Z then
    target_width ← floordiv (image_height * thumb_width) thumb_height;
    left ← floordiv (image_width - target_width) 2;
    Ok (Some (left, 0, left + target_width, image_height))%Z
  else Ok None.

Definition precrop (size : Z * Z) (image : Image.image) : result Image.image :=
  box ← precrop_box size (Image.size image);
  match box with
  | Some b => Ok (crop image b)
  | None => Ok image
  end.

(** [settings.PHOTO_SAVE_OPTIONS.get(image.format, {})] *)
Definition save_options (conf : settings) (image : Image.image) : options :=
  match format image with
  | Some f => default ∅ (PHOTO_SAVE_OPTIONS conf !! f)
  | None => ∅
  end.

(** The [except IOError] handler: [os.unlink(thumbpath)] then [raise].
    It first looks [os] up among the module's globals. *)
Definition cleanup (fs : filesystem) (thumbpath : string) (e : exn)
  : result unit * filesystem :=
  match load_global "os" with
  | Raise e' => (Raise e', fs)
  | Ok _ =>
      match unlink fs thumbpath with
      | Ok fs' => (Raise e, fs')
      | Raise e' => (Raise e', fs)
      end
  end.

(** [make_thumbnail(imagepath, thumbpath, size, crop)]: the outcome of the
    call and the filesystem it leaves. *)
Definition make_thumbnail (lib : pil) (conf : settings) (fs : filesystem)
    (imagepath thumbpath : string) (size : Z * Z) (crop : bool)
  : result unit * filesystem :=
  match
    image ← open lib fs imagepath;
    let image := auto_rotate image in
    if crop then precrop size image else Ok image
  with
  | Raise e => (Raise e, fs)
  | Ok image =>
      let image := thumbnail lib image size in
      let options := save_options conf image in
      match save lib image thumbpath options with
      | Written n => (Ok tt, <[thumbpath := n]> fs)
      | Failed e partial =>
          let fs' := match partial with
                     | Some n => <[thumbpath := n]> fs
                     | None => fs
                     end in
          if is_IOError e then cleanup fs' thumbpath e else (Raise e, fs')
      end
  end.

End Imgutil.

(** ** gallery/views.py: serving private media *)

Module Views.
Import Os Django.

(** *** Byte strings *)

(** [s[n:]] *)
Fixpoint slice_from (n : nat) (s : string) : string :=
  match n, s with
  | O, _ => s
  | S n', String _ s' => slice_from n' s'
  | S _, EmptyString => EmptyString
  end.

(** [s.startswith(p)] *)
Definition startswith (s p : string) : bool := String.prefix p s.

Definition lower_char (c : ascii) : ascii :=
  let n := nat_of_ascii c in
  if (Nat.leb 65 n && Nat.leb n 90)%bool then ascii_of_nat (n + 32) else c.

(** [s.lower()] *)
Fixpoint lower (s : string) : string :=
  match s with
  | EmptyString => EmptyString
  | String c s' => String (lower_char c) (lower s')
  end.

(** *** Requests and responses *)

Record request : Type := mkRequest {
  META : gmap string string
}.

Inductive header_value : Type :=
| HStr (s : string)
| HInt (n : Z).

(** An [HttpResponse]: headers are kept under their lower-cased name,
    next to the name as it was given. *)
Record response : Type := mkResponse {
  status_code : Z;
  content : string;
  _headers : gmap string (string * header_value)
}.

(** [response[header] = value] *)
Definition setitem (r : response) (header : string) (value : header_value)
  : response :=
  {| status_code := status_code r;
     content := content r;
     _headers := <[lower header := (header, value)]> (_headers r) |}.

(** [response[header]], [None] standing for [KeyError] *)
Definition getitem (r : response) (header : string) : option header_value :=
  snd <$> _headers r !! lower header.

(** [response.has_header(header)] *)
Definition has_header (r : response) (header : string) : bool :=
  match _headers r !! lower header with Some _ => true | None => false end.

(** [HttpResponse(content, mimetype=mimetype)] *)
Definition HttpResponse (content mimetype : string) : response :=
  {| status_code := 200;
     content := content;
     _headers := {[ lower "Content-Type" := ("Content-Type"%string, HStr mimetype) ]} |}.

(** [HttpResponseNotModified(mimetype=mimetype)] *)
Definition HttpResponseNotModified (mimetype : string) : response :=
  {| status_code := 304;
     content := "";
     _headers := {[ lower "Content-Type" := ("Content-Type"%string, HStr mimetype) ]} |}.

(** *** Library collaborators *)

Record libs : Type := mkLibs {
  (* mimetypes.guess_type(path) *)
  guess_type : string -> option string * option string;
  (* django.views.static.was_modified_since(header, mtime, size) *)
  was_modified_since : option string -> Z -> Z -> bool;
  (* django.utils.http.http_date(epoch_seconds) *)
  http_date : Z -> string
}.

(** [x or default] on an optional string *)
Definition or_else (x : option string) (d : string) : string :=
  match x with
  | Some s => if truthy s then s else d
  | None => d
  end.

(** The truth value of [encoding], as [if encoding:] tests it: the sniff
    detected a content encoding. *)
Definition detected (encoding : option string) : bool :=
  match encoding with
  | Some e => truthy e
  | None => false
  end.

Definition not_found_message : string := "Requested file doesn't exist.".
Definition not_under_root_message : string :=
  "Requested file isn't under SENDFILE_ROOT.".

(** The [else] branch of [if settings.DEBUG]: an empty body and the
    delegation header. *)
Definition delegate (conf : settings) (path mimetype : string)
  : result response :=
  let response := HttpResponse "" mimetype in
  path ←
    (if truthy (SENDFILE_ROOT conf) then
       if negb (startswith path (SENDFILE_ROOT conf))
       then Raise (ValueError not_under_root_message)
       else Ok (slice_from (String.length (SENDFILE_ROOT conf)) path)
     else Ok path);
  Ok (setitem response (SENDFILE_HEADER conf) (HStr path)).

(** The two ways of sending the file: with [settings.DEBUG] the body is
    read from the file, without it the front server is told where the file
    is. *)
Definition send (conf : settings) (fs : filesystem) (path mimetype : string)
  : result response :=
  if DEBUG conf then
    body ← read fs path;
    Ok (HttpResponse body mimetype)
  else delegate conf path mimetype.

(** The headers set once the response exists (the block copied from
    [django.views.static.serve]). *)
Definition static_headers (lib : libs) (statobj : stat_result)
    (encoding : option string) (response : response) : Views.response :=
  let response :=
    setitem response "Last-Modified" (HStr (http_date lib (st_mtime statobj))) in
  let response :=
    if S_ISREG (st_mode statobj)
    then setitem response "Content-Length" (HInt (st_size statobj))
    else response in
  match encoding with
  | Some e =>
      if truthy e then setitem response "Content-Encoding" (HStr e)
      else response
  | None => response
  end.

(** [serve_private_media(request, path)] *)
Definition serve_private_media (lib : libs) (conf : settings)
    (fs : filesystem) (request : request) (path : string)
  : result response :=
  if negb (path_exists fs path) then Raise (Http404 not_found_message) else
  statobj ← stat fs path;
  let '(mimetype, encoding) := guess_type lib path in
  let mimetype := or_else mimetype "application/octet-stream" in
  if negb (was_modified_since lib (META request !! "HTTP_IF_MODIFIED_SINCE"%string)
                              (st_mtime statobj) (st_size statobj))
  then Ok (HttpResponseNotModified mimetype) else
  response ← send conf fs path mimetype;
  Ok (static_headers lib statobj encoding response).

(** *** Filename sanitization *)

(** A Python 2 text value: a [unicode] object (its code points) or a
    byte [str]. *)
Inductive text : Type :=
| PyUnicode (s : list N)
| PyStr (s : string).

Fixpoint bytes_of (s : string) : list N :=
  match s with
  | EmptyString => []
  | String c s' => N_of_ascii c :: bytes_of s'
  end.

(** [unicode(value)]: a [unicode] object is returned as it is, a byte
    string is decoded as ASCII and raises on a byte above 127. *)
Definition unicode (value : text) : result (list N) :=
  match value with
  | PyUnicode s => Ok s
  | PyStr b =>
      if forallb (fun c => (c <? 128)%N) (bytes_of b)
      then Ok (bytes_of b)
      else Raise UnicodeDecodeError
  end.

(** [u.encode('ascii', 'ignore')]: code points above 127 are dropped. *)
Fixpoint encode_ascii_ignore (u : list N) : string :=
  match u with
  | [] => EmptyString
  | c :: u' =>
      if (c <? 128)%N
      then String (ascii_of_N c) (encode_ascii_ignore u')
      else encode_ascii_ignore u'
  end.

(** [asciify(value)]; [normalize] is [unicodedata.normalize(form, u)]. *)
Definition asciify (normalize : string -> list N -> list N) (value : text)
  : result string :=
  u ← unicode value;
  Ok (encode_ascii_ignore (normalize "NFKD"%string u)).

End Views.

(** ** Definitions that follow the specification's wording *)

Module Reference.
Import Image.

(** The inverse of each entry of the orientation table, written with the
    same five transpositions: flips and the half turn undo themselves, a
    quarter turn is undone by the opposite quarter turn, and a
    composition by the inverses in reverse order. *)
Definition inverse_rotations : list (option (image -> image)) :=
  [ None;
    Some (fun image => image);
    Some (fun image => transpose image FLIP_LEFT_RIGHT);
    Some (fun image => transpose image ROTATE_180);
    Some (fun image => transpose image FLIP_TOP_BOTTOM);
    Some (fun image => transpose (transpose image FLIP_LEFT_RIGHT) ROTATE_90);
    Some (fun image => transpose image ROTATE_90);
    Some (fun image => transpose (transpose image FLIP_LEFT_RIGHT) ROTATE_270);
    Some (fun image => transpose image ROTATE_270) ].

(** A [w] by [h] image has the aspect ratio [tw : th] up to rounding:
    growing one of its sides by less than one pixel makes the ratio
    exact. *)
Definition aspect_within_a_pixel (tw th w h : Z) : Prop :=
  (h * tw <= w * th < (h + 1) * tw)%Z \/ (w * th <= h * tw < (w + 1) * th)%Z.

(** The delegation header has a name of its own: it is none of the three
    headers the server sets after it (header names compare without regard
    to case). *)
Definition own_header_name (name : string) : Prop :=
  Views.lower name <> "last-modified"%string /\
  Views.lower name <> "content-length"%string /\
  Views.lower name <> "content-encoding"%string.

End Reference.

(** ** Concrete worlds *)

Module Examples.
Import Image Os Django Imgutil Views.

(** A 3 by 2 JPEG whose EXIF dictionary holds [orientation] under the
    orientation tag. *)
Definition snapshot (orientation : pyobj) : image :=
  {| format := Some "JPEG"%string;
     width := 3;
     height := 2;
     rows := [[1; 2; 3]; [4; 5; 6]]%Z;
     _getexif := ExifDict {[ 274%Z := orientation ]} |}.

(** A regular file, mode [0100644]. *)
Definition regular (mtime : Z) (body : string) : node :=
  {| st := {| st_mode := 33188;
              st_mtime := mtime;
              st_size := Z.of_nat (String.length body) |};
     data := body;
     readable := true |}.

(** A named pipe, mode [0010644]. *)
Definition fifo (mtime : Z) : node :=
  {| st := {| st_mode := 4516; st_mtime := mtime; st_size := 0 |};
     data := "";
     readable := true |}.

(** A directory, mode [0040755]: it exists, and [open] refuses it. *)
Definition folder (mtime : Z) : node :=
  {| st := {| st_mode := 16877; st_mtime := mtime; st_size := 4096 |};
     data := "";
     readable := false |}.

(** A PIL whose encoder fails with [IOError] after it has created the
    target and written the first bytes, as on a full disk.  The decoder
    yields the snapshot, and the thumbnail step finds it small enough. *)
Definition full_disk : pil :=
  {| decode := fun _ => Ok (snapshot (PyInt 1));
     thumbnail := fun image _ => image;
     save := fun _ _ _ => Failed IOError (Some (regular 0 "JFIF")) |}.

Definition two_digits (n : Z) : string :=
  String (ascii_of_N (Z.to_N (48 + n / 10)))
    (String (ascii_of_N (Z.to_N (48 + n mod 10))) EmptyString).

(** [http_date] for the times of 1 January 1970. *)
Definition http_date_1970 (t : Z) : string :=
  ("Thu, 01 Jan 1970 " ++ two_digits (t / 3600 mod 24) ++ ":" ++
   two_digits (t / 60 mod 60) ++ ":" ++ two_digits (t mod 60) ++ " GMT")%string.

Definition ends_with (s suffix : string) : bool :=
  String.eqb (slice_from (String.length s - String.length suffix) s) suffix.

(** Library behaviour for the examples: the type table knows [.jpg] and
    [.gz]; a file counts as not modified when the [If-Modified-Since]
    header is the date of its [mtime]. *)
Definition stock : libs :=
  {| guess_type := fun path =>
       if ends_with path ".jpg" then (Some "image/jpeg"%string, None)
       else if ends_with path ".gz" then (None, Some "gzip"%string)
       else (None, None);
     was_modified_since := fun header mtime _ =>
       match header with
       | Some h => negb (String.eqb h (http_date_1970 mtime))
       | None => true
       end;
     http_date := http_date_1970 |}.

Definition production : settings :=
  {| DEBUG := false;
     SENDFILE_ROOT := "/data";
     SENDFILE_HEADER := "X-Accel-Redirect";
     PHOTO_SAVE_OPTIONS := {[ "JPEG"%string := {[ "quality"%string := 90%Z ]} ]} |}.

Definition development : settings :=
  {| DEBUG := true;
     SENDFILE_ROOT := "/data";
     SENDFILE_HEADER := "X-Accel-Redirect";
     PHOTO_SAVE_OPTIONS := ∅ |}.

Definition disk : filesystem :=
  <[ "/data/a/x.jpg"%string := regular 30 "photo" ]>
  (<[ "/other/x.jpg"%string := regular 30 "elsewhere" ]>
  (<[ "/data/pipe"%string := fifo 30 ]> ∅)).

(** The same disk, on which the directory of the photos is listed too. *)
Definition disk_with_folder : filesystem :=
  <[ "/data/a"%string := folder 30 ]> disk.

(** A first request, and one that repeats the date of the file. *)
Definition plain_get : request := {| META := ∅ |}.
Definition conditional_get : request :=
  {| META := {[ "HTTP_IF_MODIFIED_SINCE"%string := http_date_1970 30 ]} |}.

(** Compatibility decomposition on the code points of the examples:
    U+00E9 is [e] followed by the combining acute accent U+0301; ASCII and
    the three ideographs are their own decomposition. *)
Definition normalize_sample (form : string) (u : list N) : list N :=
  if String.eqb form "NFKD"
  then flat_map (fun c => if (c =? 233)%N then [101; 769]%N else [c]) u
  else u.

Definition cafe : list N := [67; 97; 102; 233]%N.
Definition nihongo : list N := [26085; 26412; 35486]%N.

End Examples.

(** ** More concrete worlds *)

Module Studio.
Import Image Os Django Imgutil Views Examples.

(** A PIL whose encoder succeeds: it writes the width and the height of
    the image it is given.  The decoder fails on an empty file and yields
    the snapshot otherwise; the thumbnail step finds it small enough. *)
Definition darkroom : pil :=
  {| decode := fun n =>
       if String.eqb (data n) "" then Raise IOError
       else Ok (snapshot (PyInt 6));
     thumbnail := fun image _ => image;
     save := fun image _ _ =>
       Written (regular 60 (two_digits (Z.of_nat (width image)) ++ "x" ++
                            two_digits (Z.of_nat (height image)))) |}.

(** The disk of the examples, with an empty file next to the photos. *)
Definition shelf : filesystem :=
  <[ "/data/a/empty.jpg"%string := regular 30 "" ]> disk.

(** A size with its two sides exchanged. *)
Definition swap (s : Z * Z) : Z * Z := (snd s, fst s).

End Studio.

(** ** gallery/views.py: the views and their data *)

Module Gallery.
Import Os Django Views.

(** *** The module's namespace *)

(** An object bound at module level: an imported module, a class or a
    function. *)
Inductive global : Type :=
| GModule (name : string)
| GClass (name : string)
| GFunction (name : string).

(** The names the module binds, in the order it binds them: its imports,
    then its classes and functions. *)
Definition globals : list (string * global) :=
  [ ("mimetypes", GModule "mimetypes");
    ("os", GModule "os");
    ("random", GModule "random");
    ("stat", GModule "stat");
    ("unicodedata", GModule "unicodedata");
    ("settings", GModule "django.conf.settings");
    ("User", GClass "User");
    ("Http404", GClass "Http404");
    ("HttpResponse", GClass "HttpResponse");
    ("HttpResponseNotModified", GClass "HttpResponseNotModified");
    ("get_object_or_404", GFunction "get_object_or_404");
    ("http_date", GFunction "http_date");
    ("ArchiveIndexView", GClass "ArchiveIndexView");
    ("DetailView", GClass "DetailView");
    ("YearArchiveView", GClass "YearArchiveView");
    ("was_modified_since", GFunction "was_modified_since");
    ("Album", GClass "Album");
    ("Photo", GClass "Photo");
    ("GalleryCommonMixin", GClass "GalleryCommonMixin");
    ("AlbumListMixin", GClass "AlbumListMixin");
    ("AlbumListWithPreviewMixin", GClass "AlbumListWithPreviewMixin");
    ("GalleryIndexView", GClass "GalleryIndexView");
    ("GalleryYearView", GClass "GalleryYearView");
    ("AlbumView", GClass "AlbumView");
    ("PhotoView", GClass "PhotoView");
    ("_get_photo_if_allowed", GFunction "_get_photo_if_allowed");
    ("resized_photo", GFunction "resized_photo");
    ("original_photo", GFunction "original_photo");
    ("serve_private_media", GFunction "serve_private_media");
    ("asciify", GFunction "asciify") ]%string.

Fixpoint assoc (name : string) (l : list (string * global)) : option global :=
  match l with
  | [] => None
  | (k, v) :: l' => if String.eqb k name then Some v else assoc name l'
  end.

(** Reading a name that is no local variable: a name the module does not
    bind (and that is no builtin) raises [NameError]. *)
Definition load_global (name : string) : result global :=
  match assoc name globals with
  | Some g => Ok g
  | None => Raise (NameError name)
  end.

(** *** Users, photos, albums *)

Record user : Type := mkUser {
  is_authenticated : bool;
  has_perm : string -> bool
}.

Record photo : Type := mkPhoto {
  filename : text;
  abspath : string
}.

(** An album with its photos; [preview] is the attribute the index views
    attach, absent until they do. *)
Record album : Type := mkAlbum {
  photo_set : list photo;
  preview : option (list photo)
}.

(** The template context: what the views store under each name. *)
Inductive value : Type :=
| VText (t : text)
| VPhoto (p : photo)
| VPhotos (l : list photo)
| VAlbum (a : album)
| VAlbums (l : list album).

Abbreviation context := (gmap string value).

(** The outcome of asking the data layer for the neighbour of an object:
    there is one, there is none ([DoesNotExist]), or the query fails. *)
Inductive neighbour (A : Type) : Type :=
| Neighbour (a : A)
| DoesNotExist
| QueryFails (e : exn).
Arguments Neighbour {A} a.
Arguments DoesNotExist {A}.
Arguments QueryFails {A} e.

(** *** GalleryCommonMixin *)

(** A view object: the user of its request and the [_can_view_all]
    attribute, absent until [can_view_all] sets it. *)
Record view : Type := mkView {
  request_user : user;
  _can_view_all : option bool
}.

(** [self.can_view_all()]: the answer and the view as the call leaves it. *)
Definition can_view_all (self : view) : bool * view :=
  match _can_view_all self with
  | Some answer => (answer, self)
  | None =>
      let answer := has_perm (request_user self) "gallery.view" in
      (answer, {| request_user := request_user self;
                  _can_view_all := Some answer |})
  end.

(** [u"Gallery"] *)
Definition default_title : text := PyUnicode [71; 97; 108; 108; 101; 114; 121]%N.

(** [GalleryCommonMixin.get_context_data]: [parent] is what the next
    class in line returns, [PHOTO_TITLE] the setting of that name if
    there is one. *)
Definition common_context_data (PHOTO_TITLE : option text)
    (parent : result context) : result context :=
  context ← parent;
  Ok (<["title"%string := VText (default default_title PHOTO_TITLE)]> context).

(** *** AlbumView *)

(** [obj.photo_set] on a module-level object: modules, classes and
    functions of this module have no such attribute. *)
Definition photo_set_of (obj : global) : result (list photo) :=
  Raise AttributeError.

(** [context[key] = neighbour], skipped on [DoesNotExist]. *)
Definition add_neighbour {A} (wrap : A -> value) (key : string)
    (n : neighbour A) (context : context) : result Gallery.context :=
  match n with
  | Neighbour a => Ok (<[key := wrap a]> context)
  | DoesNotExist => Ok context
  | QueryFails e => Raise e
  end.

(** [AlbumView.get_context_data]: [allowed] is the data layer's
    [allowed_for_user] filter, [previous] and [next] what it answers for
    the neighbours of the album. *)
Definition album_context_data (PHOTO_TITLE : option text)
    (allowed : user -> photo -> bool)
    (previous next : neighbour album)
    (self : view) (parent : result context) : result context * view :=
  match common_context_data PHOTO_TITLE parent with
  | Raise e => (Raise e, self)
  | Ok context =>
      let '(all, self) := can_view_all self in
      (photos ←
         (if all then
            album ← load_global "album";
            photo_set_of album
          else
            album ← load_global "album";
            l ← photo_set_of album;
            Ok (List.filter (allowed (request_user self)) l));
       let context := <["photos"%string := VPhotos photos]> context in
       context ← add_neighbour VAlbum "previous_album" previous context;
       add_neighbour VAlbum "next_album" next context,
       self)
  end.

(** *** AlbumListWithPreviewMixin *)

Section Preview.
Variable rng : Type.

(** The data layer and the random generator, as the preview needs them:
    [photo.is_allowed_for_user(user)], the query that loads a user again
    with its groups, and the choice [random.sample] makes. *)
Record backend : Type := mkBackend {
  is_allowed_for_user : photo -> user -> bool;
  reload_user : user -> result user;
  choose : rng -> list photo -> nat -> list photo * rng
}.

(** [random.sample(population, k)]: a sample larger than the population
    raises [ValueError]. *)
Definition random_sample (b : backend) (g : rng)
    (population : list photo) (k : nat) : result (list photo * rng) :=
  if Nat.leb k (length population)
  then Ok (choose b g population k)
  else Raise (ValueError "sample larger than population").

(** The photos a preview is drawn from: all of the album's for a user who
    may view everything, else those the user is allowed, in order. *)
Definition visible (b : backend) (all : bool) (user : user) (album : album)
  : list photo :=
  if all then photo_set album
  else List.filter (fun photo => is_allowed_for_user b photo user)
                   (photo_set album).

(** The body of the loop, for one album. *)
Definition attach_preview (b : backend) (user : user) (album : album)
    (state : view * rng) : result (Gallery.album * (view * rng)) :=
  let '(self, g) := state in
  let '(all, self) := can_view_all self in
  let photos := visible b all user album in
  '(sampled, g) ← random_sample b g photos (Nat.min (length photos) 5);
  Ok ({| photo_set := photo_set album; preview := Some sampled |}, (self, g)).

(** The loop over [context['object_list']]. *)
Fixpoint attach_previews (b : backend) (user : user) (albums : list album)
    (state : view * rng) : result (list album * (view * rng)) :=
  match albums with
  | [] => Ok ([], state)
  | album :: rest =>
      '(album, state) ← attach_preview b user album state;
      '(rest, state) ← attach_previews b user rest state;
      Ok (album :: rest, state)
  end.

(** [AlbumListWithPreviewMixin.get_context_data]: the context, in which
    the albums of [object_list] now carry their preview, and the view and
    the generator as the call leaves them. *)
Definition preview_context_data (b : backend)
    (self : view) (g : rng) (parent : result context)
  : result (context * (view * rng)) :=
  context ← parent;
  let user := request_user self in
  let '(all, self) := can_view_all self in
  user ← (if negb all && is_authenticated user
          then reload_user b user else Ok user);
  match context !! "object_list"%string with
  | None => Raise KeyError
  | Some (VAlbums albums) =>
      '(albums, state) ← attach_previews b user albums (self, g);
      Ok (<["object_list"%string := VAlbums albums]> context, state)
  | Some (VPhotos []) | Some (VText (PyUnicode [])) | Some (VText (PyStr "")) =>
      (* nothing to loop over *)
      Ok (context, (self, g))
  | Some (VPhotos (_ :: _)) | Some (VText _) =>
      (* the first element has no [photo_set] *)
      Raise AttributeError
  | Some (VPhoto _) | Some (VAlbum _) =>
      (* not iterable *)
      Raise TypeError
  end.

End Preview.

End Gallery.

(** ** gallery/views.py: serving photos *)

From stdpp Require Import pretty.

Module Photos.
Import Os Django Views Gallery.

(** *** Paths and formatting *)

(** [s.rfind(c)]: the index of the last [c] in [s], or -1. *)
Fixpoint rfind_from (c : ascii) (s : string) (i last : Z) : Z :=
  match s with
  | EmptyString => last
  | String d s' =>
      rfind_from c s' (i + 1) (if Ascii.eqb d c then i else last)
  end.

Definition rfind (c : ascii) (s : string) : Z := rfind_from c s 0 (-1).

(** The loop of [splitext] that skips leading dots: is there, among the
    [steps] characters from [filenameIndex] on, one that is no dot? *)
Fixpoint has_stem (p : string) (filenameIndex steps : nat) : bool :=
  match steps with
  | O => false
  | S steps' =>
      match String.get filenameIndex p with
      | Some c =>
          if Ascii.eqb c "." then has_stem p (S filenameIndex) steps'
          else true
      | None => false
      end
  end.

(** [os.path.splitext(p)], on POSIX paths: the extension starts at the
    last dot, provided that dot comes after the last slash and after a
    character of the file name that is no dot. *)
Definition splitext (p : string) : string * string :=
  let sepIndex := rfind "/" p in
  let dotIndex := rfind "." p in
  if (dotIndex >? sepIndex)%Z &&
     has_stem p (Z.to_nat (sepIndex + 1)) (Z.to_nat (dotIndex - (sepIndex + 1)))
  then (String.substring 0 (Z.to_nat dotIndex) p, slice_from (Z.to_nat dotIndex) p)
  else (p, ""%string).

(** ['%s' % n] for an integer: its decimal digits. *)
Definition str (n : Z) : string := pretty n.

(** *** The data layer *)

(** What [gallery/models.py] and the builtins provide: the table of
    photos by primary key, the filter behind
    [Photo.objects.allowed_for_user(user)], the method
    [photo.thumbnail(preset)], which may write to the filesystem and gives
    the path of the thumbnail, and [int]. *)
Record models : Type := mkModels {
  Photo_objects : gmap Z photo;
  allowed_for_user : user -> photo -> bool;
  thumbnail : photo -> string -> filesystem -> result string * filesystem;
  int : string -> result Z
}.

(** A request with its user. *)
Record web_request : Type := mkWebRequest {
  http : request;
  user : Gallery.user
}.

(** [get_object_or_404(qs, pk=pk)] on photos. *)
Definition get_object_or_404 (qs : gmap Z photo) (pk : Z) : result photo :=
  match qs !! pk with
  | Some p => Ok p
  | None => Raise (Http404 "No Photo matches the given query.")
  end.

(** [_get_photo_if_allowed(request, pk)] *)
Definition _get_photo_if_allowed (db : models) (request : web_request)
    (pk : Z) : result photo :=
  let qs := Photo_objects db in
  let qs :=
    if negb (has_perm (user request) "gallery.view")
    then filter (fun kp => allowed_for_user db (user request) (snd kp) = true) qs
    else qs in
  get_object_or_404 qs pk.

(** [original_photo(request, pk)] *)
Definition original_photo (lib : libs)
    (normalize : string -> list N -> list N) (conf : settings)
    (db : models) (fs : filesystem) (request : web_request) (pk : string)
  : result response :=
  pk ← int db pk;
  photo ← _get_photo_if_allowed db request pk;
  let path := abspath photo in
  response ← serve_private_media lib conf fs (http request) path;
  ascii_filename ← asciify normalize (filename photo);
  Ok (setitem response "Content-Disposition"
        (HStr ("inline; filename=" ++ ascii_filename ++ ";"))).

(** [resized_photo(request, preset, pk)]: the outcome and the filesystem
    as [photo.thumbnail] leaves it.  [PHOTO_RESIZE_PRESETS] is the setting
    of that name. *)
Definition resized_photo (lib : libs)
    (normalize : string -> list N -> list N) (conf : settings)
    (PHOTO_RESIZE_PRESETS : gmap string (Z * Z * bool))
    (db : models) (fs : filesystem) (request : web_request)
    (preset pk : string)
  : result response * filesystem :=
  match pk ← int db pk; _get_photo_if_allowed db request pk with
  | Raise e => (Raise e, fs)
  | Ok photo =>
      match thumbnail db photo preset fs with
      | (Raise e, fs) => (Raise e, fs)
      | (Ok path, fs) =>
          (response ← serve_private_media lib conf fs (http request) path;
           name ← asciify normalize (filename photo);
           let '(root, ext) := splitext name in
           '(width, height, _) ←
             match PHOTO_RESIZE_PRESETS !! preset with
             | Some p => Ok p
             | None => Raise KeyError
             end;
           let ascii_filename :=
             (root ++ "_" ++ str width ++ "x" ++ str height ++ ext)%string in
           Ok (setitem response "Content-Disposition"
                 (HStr ("inline; filename=" ++ ascii_filename ++ ";"))),
           fs)
      end
  end.

End Photos.

(** ** A small site *)

Module Site.
Import Os Django Views Examples Gallery Photos.

(** A member without the global permission, and a curator with it. *)
Definition member : Gallery.user :=
  {| is_authenticated := true; has_perm := fun _ => false |}.
Definition curator : Gallery.user :=
  {| is_authenticated := true;
     has_perm := fun perm => String.eqb perm "gallery.view" |}.

Definition beach : photo :=
  {| filename := PyUnicode [112; 108; 97; 103; 101; 46; 106; 112; 103]%N;
     abspath := "/data/a/x.jpg" |}.
Definition party : photo :=
  {| filename := PyUnicode (cafe ++ [46; 106; 112; 103]%N);
     abspath := "/other/x.jpg" |}.

(** Members may see the beach, not the party.  Thumbnails are kept next to
    the original; making one is not modelled here, the path is all the
    views need.  [int] reads one decimal digit. *)
Definition archive : models :=
  {| Photo_objects := <[ 1%Z := beach ]> (<[ 2%Z := party ]> ∅);
     allowed_for_user := fun _ p => String.eqb (abspath p) "/data/a/x.jpg";
     thumbnail := fun p _ fs => (Ok (abspath p), fs);
     int := fun s =>
       match s with
       | String c EmptyString =>
           let n := N_of_ascii c in
           if ((48 <=? n) && (n <=? 57))%N then Ok (Z.of_N n - 48)%Z
           else Raise (ValueError "invalid literal for int()")
       | _ => Raise (ValueError "invalid literal for int()")
       end |}.

Definition presets : gmap string (Z * Z * bool) :=
  {[ "thumb"%string := (128, 128, true)%Z ]}.

Definition by_member : web_request := {| http := plain_get; user := member |}.
Definition by_curator : web_request := {| http := plain_get; user := curator |}.

(** A generator that always takes the first photos. *)
Definition first_come : backend unit :=
  {| is_allowed_for_user := fun p _ => String.eqb (abspath p) "/data/a/x.jpg";
     reload_user := fun u => Ok u;
     choose := fun g population k => (firstn k population, g) |}.

Definition holidays : album :=
  {| photo_set := [beach; party]; preview := None |}.

Definition front_page : context :=
  {[ "object_list"%string := VAlbums [holidays] ]}.

End Site.

(** * Properties *)

(** ** Pixel matrices *)

Section Matrices.
Import Image.

Lemma columns_length w m :
  Forall (fun r => length r = w) m -> length (columns w m) = w.
Proof.
  induction 1 as [|r m Hr Hm IH]; simpl.
  - apply repeat_length.
  - rewrite length_zip_with. lia.
Qed.

Lemma columns_heights w m :
  Forall (fun r => length r = w) m ->
  Forall (fun c => length c = length m) (columns w m).
Proof.
  induction 1 as [|r m Hr Hm IH]; simpl.
  - apply List.Forall_forall. intros c Hc. apply repeat_spec in Hc. now subst.
  - pose proof (columns_length w m Hm) as Hlen.
    revert IH Hlen. generalize (columns w m) as cs. clear Hm. revert w Hr.
    induction r as [|a r IHr]; intros w Hr cs Hcs Hlen; simpl.
    + constructor.
    + destruct cs as [|c cs]; simpl; [constructor|].
      apply Forall_cons in Hcs as [Hc Hcs].
      constructor; [simpl; congruence|].
      simpl in *. apply (IHr (length r)); auto; lia.
Qed.

Lemma columns_nil_rows w : columns 0 (repeat [] w) = [].
Proof. destruct w; reflexivity. Qed.

Lemma columns_zip_cons h (r : list pixel) cs :
  length r = length cs ->
  columns (S h) (zip_with cons r cs) = r :: columns h cs.
Proof.
  revert cs. induction r as [|a r IH]; intros [|c cs] Hlen;
    simpl in *; try discriminate; [reflexivity|].
  rewrite IH by lia. reflexivity.
Qed.

(** Taking columns twice gives the matrix back. *)
Lemma columns_involutive w m :
  Forall (fun r => length r = w) m ->
  columns (length m) (columns w m) = m.
Proof.
  induction 1 as [|r m Hr Hm IH]; simpl.
  - apply columns_nil_rows.
  - rewrite columns_zip_cons, IH; [reflexivity|].
    rewrite columns_length; auto.
Qed.

Lemma zip_cons_app (r : list pixel) xs ys :
  zip_with cons r (zip_with app xs ys) = zip_with app (zip_with cons r xs) ys.
Proof.
  revert xs ys. induction r as [|a r IH]; intros [|x xs] [|y ys];
    simpl; try reflexivity.
  now rewrite IH.
Qed.

Lemma zip_app_nil_rows w (cs : list (list pixel)) :
  length cs = w -> zip_with app (repeat [] w) cs = cs.
Proof.
  revert w. induction cs as [|c cs IH]; intros [|w] Hlen;
    simpl in *; try discriminate; [reflexivity|].
  rewrite IH by lia. reflexivity.
Qed.

Lemma columns_app w m1 m2 :
  Forall (fun r => length r = w) m2 ->
  columns w (m1 ++ m2) = zip_with app (columns w m1) (columns w m2).
Proof.
  intros H2. induction m1 as [|r m1 IH]; simpl.
  - rewrite zip_app_nil_rows; [reflexivity|]. now apply columns_length.
  - rewrite IH. apply zip_cons_app.
Qed.

Lemma map_rev_zip_cons (r : list pixel) cs :
  length r = length cs ->
  map (@rev pixel) (zip_with cons r cs) =
  zip_with app (map (@rev pixel) cs) (zip_with cons r (repeat [] (length r))).
Proof.
  revert cs. induction r as [|a r IH]; intros [|c cs] Hlen;
    simpl in *; try discriminate; [reflexivity|].
  rewrite IH by lia. reflexivity.
Qed.

(** Reversing the order of the rows reverses every column. *)
Lemma columns_rev w m :
  Forall (fun r => length r = w) m ->
  columns w (rev m) = map (@rev pixel) (columns w m).
Proof.
  induction 1 as [|r m Hr Hm IH]; simpl.
  - induction w; simpl; congruence.
  - rewrite columns_app by (repeat constructor; assumption).
    rewrite IH. simpl.
    rewrite map_rev_zip_cons by (rewrite columns_length; auto).
    now rewrite Hr.
Qed.

Lemma Forall_length_rev w (m : list (list pixel)) :
  Forall (fun r => length r = w) m ->
  Forall (fun r => length r = w) (rev m).
Proof.
  intros H. apply List.Forall_forall. intros r Hr.
  apply in_rev in Hr. rewrite List.Forall_forall in H. now apply H.
Qed.

Lemma Forall_length_map_rev w (m : list (list pixel)) :
  Forall (fun r => length r = w) m ->
  Forall (fun r => length r = w) (map (@rev pixel) m).
Proof.
  induction 1; simpl; constructor; auto. now rewrite length_rev.
Qed.

Lemma map_rev_involutive (m : list (list pixel)) :
  map (@rev pixel) (map (@rev pixel) m) = m.
Proof.
  induction m as [|r m IH]; simpl; [reflexivity|].
  now rewrite rev_involutive, IH.
Qed.

(** Reversing every row reverses the order of the columns. *)
Lemma columns_map_rev w m :
  Forall (fun r => length r = w) m ->
  columns w (map (@rev pixel) m) = rev (columns w m).
Proof.
  intros Hm.
  pose proof (columns_heights w m Hm) as Hcs.
  pose proof (columns_length w m Hm) as Hlen.
  rewrite <- (columns_involutive w m Hm) at 1.
  rewrite <- columns_rev by assumption.
  rewrite <- Hlen at 1. rewrite <- (length_rev (columns w m)).
  apply columns_involutive. now apply Forall_length_rev.
Qed.

End Matrices.

(** ** The orientation table *)

Section Orientation.
Import Image Imgutil Reference.

Lemma columns_heights_eq w h m :
  Forall (fun r => length r = w) m ->
  length m = h ->
  Forall (fun c => length c = h) (columns w m).
Proof. intros Hm <-. now apply columns_heights. Qed.

Create HintDb rows.
#[local] Hint Resolve Forall_length_rev Forall_length_map_rev
  columns_heights_eq : rows.
#[local] Hint Extern 1 (length _ = _) =>
  rewrite ?length_map, ?length_rev; reflexivity : rows.

Ltac matrix_simpl :=
  repeat first
    [ rewrite map_rev_involutive
    | rewrite rev_involutive
    | rewrite columns_involutive by auto with rows
    | rewrite columns_rev by auto with rows
    | rewrite columns_map_rev by auto with rows
    | rewrite <- map_rev ].

(** C5. For every orientation value from 1 to 8 the table holds a
    transform, and that transform followed by its inverse, as well as the
    inverse followed by the transform, gives back an image of the same
    size with the same pixels. *)
Theorem exif_rotations_invertible (o : Z) (im : image) :
  (1 <= o <= 8)%Z ->
  wf im ->
  exists f g,
    tuple_getitem exif_rotations (PyInt o) = Ok (Some f) /\
    tuple_getitem inverse_rotations (PyInt o) = Ok (Some g) /\
    same_pixels (g (f im)) im /\
    same_pixels (f (g im)) im.
Proof.
  intros Ho [Hh Hw].
  destruct im as [fmt w h m ex]. simpl in Hh, Hw. subst h.
  assert (Hcases : (o = 1 \/ o = 2 \/ o = 3 \/ o = 4 \/
                    o = 5 \/ o = 6 \/ o = 7 \/ o = 8)%Z) by lia.
  unfold same_pixels.
  repeat (destruct Hcases as [->|Hcases]); [idtac..|subst o];
    (eexists; eexists; split; [reflexivity|split; [reflexivity|]]);
    cbn [transpose new_image width height rows];
    matrix_simpl; repeat split; reflexivity.
Qed.

End Orientation.

(** ** The pre-crop step *)

Section PreCrop.
Import Image Imgutil Reference.
Local Open Scope Z_scope.

Lemma floor_bounds a b : 0 < b -> b * (a / b) <= a < b * (a / b + 1).
Proof.
  intros Hb. split.
  - apply Z.mul_div_le; assumption.
  - replace (a / b + 1) with (Z.succ (a / b)) by lia.
    apply Z.mul_succ_div_gt; assumption.
Qed.

Lemma floordiv_pos a b : 0 < b -> floordiv a b = Ok (a / b).
Proof.
  intros Hb. unfold floordiv.
  destruct (Z.eqb_spec b 0); [lia|reflexivity].
Qed.

(** The three branches of the comparison, with the divisions carried out:
    on positive sizes no division fails. *)
Lemma precrop_box_cases tw th sw sh :
  0 < tw -> 0 < th ->
  precrop_box (tw, th) (sw, sh) =
  if tw * sh >? sw * th then
    Ok (Some (0, (sh - sw * th / tw) / 2, sw,
              (sh - sw * th / tw) / 2 + sw * th / tw))
  else if tw * sh <? sw * th then
    Ok (Some ((sw - sh * tw / th) / 2, 0,
              (sw - sh * tw / th) / 2 + sh * tw / th, sh))
  else Ok None.
Proof.
  intros Htw Hth. unfold precrop_box.
  rewrite (floordiv_pos _ tw Htw), (floordiv_pos _ th Hth).
  reflexivity.
Qed.

Lemma crop_size im x0 y0 x1 y1 :
  x0 <= x1 -> y0 <= y1 ->
  size (crop im (x0, y0, x1, y1)) = (x1 - x0, y1 - y0).
Proof.
  intros Hx Hy. unfold size, crop. cbn [new_image width height].
  now rewrite !Z2Nat.id by lia.
Qed.

(** C4. On a source of positive size and a positive target size the
    pre-crop step compares [tw*sh] with [sw*th] in exact integers; it
    leaves the image alone when they are equal; when the target is
    relatively wider it crops to the full width and to the height
    [sw*th // tw], from [top = (sh - sw*th // tw) // 2]; when the target is
    relatively taller it crops symmetrically on the width; and the cropped
    size has the target's aspect ratio up to less than one pixel. *)
Theorem precrop_aspect (im : image) (tw th sw sh : Z) :
  size im = (sw, sh) ->
  0 < tw -> 0 < th -> 0 < sw -> 0 < sh ->
  (tw * sh = sw * th -> precrop (tw, th) im = Ok im) /\
  (tw * sh > sw * th ->
   let target_height := sw * th / tw in
   let top := (sh - target_height) / 2 in
   let cropped := crop im (0, top, sw, top + target_height) in
   precrop (tw, th) im = Ok cropped /\
   size cropped = (sw, target_height) /\
   aspect_within_a_pixel tw th sw target_height) /\
  (tw * sh < sw * th ->
   let target_width := sh * tw / th in
   let left := (sw - target_width) / 2 in
   let cropped := crop im (left, 0, left + target_width, sh) in
   precrop (tw, th) im = Ok cropped /\
   size cropped = (target_width, sh) /\
   aspect_within_a_pixel tw th target_width sh).
Proof.
  intros Hsize Htw Hth Hsw Hsh.
  unfold precrop. rewrite Hsize.
  rewrite precrop_box_cases by assumption.
  pose proof (floor_bounds (sw * th) tw Htw) as Hh.
  pose proof (floor_bounds (sh * tw) th Hth) as Hw.
  rewrite Z.gtb_ltb.
  assert (0 <= sw * th / tw) as Hh0 by (apply Z.div_pos; lia).
  assert (0 <= sh * tw / th) as Hw0 by (apply Z.div_pos; lia).
  split; [|split].
  - intros Heq.
    destruct (Z.ltb_spec (sw * th) (tw * sh)); [lia|].
    destruct (Z.ltb_spec (tw * sh) (sw * th)); [lia|reflexivity].
  - intros Hwide. cbv zeta.
    destruct (Z.ltb_spec (sw * th) (tw * sh)); [|lia].
    split; [reflexivity|]. split.
    + rewrite crop_size; [f_equal; lia|lia|lia].
    + left. lia.
  - intros Htall. cbv zeta.
    destruct (Z.ltb_spec (sw * th) (tw * sh)); [lia|].
    destruct (Z.ltb_spec (tw * sh) (sw * th)); [|lia].
    split; [reflexivity|]. split.
    + rewrite crop_size; [f_equal; lia|lia|lia].
    + right. lia.
Qed.

(** C10. On a source of positive size and a positive target size the
    pre-crop step always yields a box or none, and a box it yields lies
    within the source: when it crops vertically the box spans the full
    width and [0 <= top], [top + target_height <= sh]; when it crops
    horizontally the box spans the full height and [0 <= left],
    [left + target_width <= sw]. *)
Theorem precrop_box_within_source (tw th sw sh : Z) :
  0 < tw -> 0 < th -> 0 < sw -> 0 < sh ->
  exists box,
    precrop_box (tw, th) (sw, sh) = Ok box /\
    forall left upper right lower,
      box = Some (left, upper, right, lower) ->
      0 <= left /\ left <= right /\ right <= sw /\
      0 <= upper /\ upper <= lower /\ lower <= sh /\
      ((tw * sh > sw * th /\ left = 0 /\ right = sw /\
        lower - upper = sw * th / tw) \/
       (tw * sh < sw * th /\ upper = 0 /\ lower = sh /\
        right - left = sh * tw / th)).
Proof.
  intros Htw Hth Hsw Hsh.
  rewrite precrop_box_cases by assumption.
  pose proof (floor_bounds (sw * th) tw Htw) as Hh.
  pose proof (floor_bounds (sh * tw) th Hth) as Hw.
  assert (0 <= sw * th / tw) as Hh0 by (apply Z.div_pos; lia).
  assert (0 <= sh * tw / th) as Hw0 by (apply Z.div_pos; lia).
  rewrite Z.gtb_ltb.
  destruct (Z.ltb_spec (sw * th) (tw * sh)) as [Hwide|Hnw].
  - eexists; split; [reflexivity|].
    intros l u r b Hbox. injection Hbox as <- <- <- <-.
    assert (sw * th / tw < sh) as Hlt by nia.
    pose proof (floor_bounds (sh - sw * th / tw) 2 ltac:(lia)) as Ht.
    assert (0 <= (sh - sw * th / tw) / 2) by (apply Z.div_pos; lia).
    repeat split; lia.
  - destruct (Z.ltb_spec (tw * sh) (sw * th)) as [Htall|Hnt].
    + eexists; split; [reflexivity|].
      intros l u r b Hbox. injection Hbox as <- <- <- <-.
      assert (sh * tw / th < sw) as Hlt by nia.
      pose proof (floor_bounds (sw - sh * tw / th) 2 ltac:(lia)) as Ht.
      assert (0 <= (sw - sh * tw / th) / 2) by (apply Z.div_pos; lia).
      repeat split; lia.
    + eexists; split; [reflexivity|]. intros l u r b Hbox. discriminate.
Qed.

End PreCrop.

Section PreCropWitnesses.
Import Image Imgutil Reference Examples.
Local Open Scope Z_scope.

Lemma precrop_aspect_witness :
  size (snapshot (PyInt 1)) = (3, 2) /\
  (0 < 4 /\ 0 < 3 /\ 0 < 3 /\ 0 < 2) /\
  (4 * 2 < 3 * 3 ->
   let target_width := 2 * 4 / 3 in
   let left := (3 - target_width) / 2 in
   let cropped := crop (snapshot (PyInt 1)) (left, 0, left + target_width, 2) in
   precrop (4, 3) (snapshot (PyInt 1)) = Ok cropped /\
   size cropped = (target_width, 2) /\
   aspect_within_a_pixel 4 3 target_width 2).
Proof.
  split; [reflexivity|]. split; [lia|].
  apply (precrop_aspect (snapshot (PyInt 1)) 4 3 3 2); [reflexivity|lia..].
Defined.

Lemma precrop_box_within_source_witness :
  (0 < 4 /\ 0 < 3 /\ 0 < 3 /\ 0 < 2) /\
  exists box,
    precrop_box (4, 3) (3, 2) = Ok box /\
    forall left upper right lower,
      box = Some (left, upper, right, lower) ->
      0 <= left /\ left <= right /\ right <= 3 /\
      0 <= upper /\ upper <= lower /\ lower <= 2 /\
      ((4 * 2 > 3 * 3 /\ left = 0 /\ right = 3 /\
        lower - upper = 3 * 3 / 4) \/
       (4 * 2 < 3 * 3 /\ upper = 0 /\ lower = 2 /\
        right - left = 2 * 4 / 3)).
Proof.
  split; [lia|].
  apply (precrop_box_within_source 4 3 3 2); lia.
Defined.

End PreCropWitnesses.

(** ** Auto-rotation *)

Section AutoRotate.
Import Image Imgutil Reference Examples.
Local Open Scope Z_scope.

Lemma exif_rotations_invertible_witness :
  (1 <= 6 <= 8) /\ wf (snapshot (PyInt 6)) /\
  exists f g,
    tuple_getitem exif_rotations (PyInt 6) = Ok (Some f) /\
    tuple_getitem inverse_rotations (PyInt 6) = Ok (Some g) /\
    same_pixels (g (f (snapshot (PyInt 6)))) (snapshot (PyInt 6)) /\
    same_pixels (f (g (snapshot (PyInt 6)))) (snapshot (PyInt 6)).
Proof.
  assert (Hwf : wf (snapshot (PyInt 6))).
  { split; [reflexivity|]. repeat constructor. }
  split; [lia|]. split; [exact Hwf|].
  apply (exif_rotations_invertible 6 (snapshot (PyInt 6))); [lia|exact Hwf].
Defined.

(** The auto-rotate step returns an image whatever the EXIF data is: the
    image is kept as it was when the source is no JPEG, *)
Lemma auto_rotate_not_jpeg im :
  format im <> Some "JPEG"%string -> auto_rotate im = im.
Proof.
  intros Hfmt. unfold auto_rotate. case_bool_decide; [contradiction|reflexivity].
Qed.

(** when reading the orientation raises (no EXIF segment, no orientation
    tag, a decoder error), *)
Lemma auto_rotate_read_failure im e :
  read_orientation im = Raise e -> auto_rotate im = im.
Proof.
  intros Hread. unfold auto_rotate, rotate_by_exif. rewrite Hread. simpl.
  case_bool_decide; reflexivity.
Qed.

(** when the orientation is no integer, *)
Lemma auto_rotate_not_an_integer im repr :
  read_orientation im = Ok (PyOther repr) -> auto_rotate im = im.
Proof.
  intros Hread. unfold auto_rotate, rotate_by_exif. rewrite Hread. simpl.
  case_bool_decide; reflexivity.
Qed.

(** and when the orientation is 0, above 8 or below -8. *)
Lemma auto_rotate_out_of_table im n :
  read_orientation im = Ok (PyInt n) ->
  n = 0 \/ 8 < n \/ n < -8 ->
  auto_rotate im = im.
Proof.
  intros Hread Hn. unfold auto_rotate, rotate_by_exif. rewrite Hread.
  case_bool_decide; [|reflexivity].
  cbn [mbind result_bind tuple_getitem]. change (Z.of_nat (length exif_rotations)) with 9.
  destruct (Z.ltb_spec n 0) as [Hneg|Hpos].
  - destruct (Z.eq_dec n (-9)) as [->|Hne]; [reflexivity|].
    destruct (Z.leb_spec 0 (n + 9)); [lia|reflexivity].
  - destruct Hn as [->|[Hn|Hn]]; [reflexivity| |lia].
    destruct (Z.leb_spec 0 n); [|lia].
    destruct (Z.ltb_spec n 9); [lia|reflexivity].
Qed.

(** C3. An orientation of -1 lies outside 1..8, yet indexing the table
    with it selects the last entry: the image is turned by 90 degrees
    instead of being kept. *)
Theorem auto_rotate_negative_orientation :
  read_orientation (snapshot (PyInt (-1))) = Ok (PyInt (-1)) /\
  auto_rotate (snapshot (PyInt (-1))) =
    transpose (snapshot (PyInt (-1))) ROTATE_90 /\
  rows (auto_rotate (snapshot (PyInt (-1)))) = [[3; 6]; [2; 5]; [1; 4]] /\
  rows (snapshot (PyInt (-1))) = [[1; 2; 3]; [4; 5; 6]].
Proof. repeat split; reflexivity. Qed.

End AutoRotate.

(** ** Cleaning up after a failed save *)

Section FailedSave.
Import Image Os Django Imgutil Examples.

(** The handler never reaches [os.unlink]: [os] is no global of the
    module, so the lookup raises and the filesystem stays as it is. *)
Lemma cleanup_raises_NameError (fs : filesystem) thumbpath e :
  cleanup fs thumbpath e = (Raise (NameError "os"), fs).
Proof. reflexivity. Qed.

Lemma make_thumbnail_failed_save lib conf (fs : filesystem)
    imagepath thumbpath (size : Z * Z) (crop : bool) prepared n :
  (image ← open lib fs imagepath;
   let image := auto_rotate image in
   if crop then precrop size image else Ok image) = Ok prepared ->
  save lib (thumbnail lib prepared size) thumbpath
       (save_options conf (thumbnail lib prepared size)) =
    Failed IOError (Some n) ->
  make_thumbnail lib conf fs imagepath thumbpath size crop =
    (Raise (NameError "os"), <[thumbpath := n]> fs).
Proof.
  intros Hpipeline Hsave. unfold make_thumbnail.
  cbv zeta in Hpipeline |- *. rewrite Hpipeline, Hsave. reflexivity.
Qed.

(** C1. When the encoder fails with [IOError] after it has started to
    write the thumbnail, the call ends in [NameError] instead of the
    encoder's error, and the partial file is still at the target path. *)
Theorem make_thumbnail_failed_save_keeps_file :
  let outcome :=
    make_thumbnail full_disk production disk
      "/data/a/x.jpg" "/data/a/x_thumb.jpg" (2, 2)%Z true in
  path_exists disk "/data/a/x_thumb.jpg" = false /\
  fst outcome = Raise (NameError "os") /\
  path_exists (snd outcome) "/data/a/x_thumb.jpg" = true /\
  (snd outcome : filesystem) !! "/data/a/x_thumb.jpg"%string =
    Some (regular 0 "JFIF").
Proof. vm_compute. repeat split; reflexivity. Qed.

End FailedSave.

(** ** Response headers *)

Section Headers.
Import Os Django Views Reference.

Lemma getitem_setitem r h v : getitem (setitem r h v) h = Some v.
Proof. unfold getitem, setitem. simpl. now rewrite lookup_insert_eq. Qed.

Lemma getitem_setitem_other r h h' v :
  lower h <> lower h' -> getitem (setitem r h v) h' = getitem r h'.
Proof.
  intros Hne. unfold getitem, setitem. simpl. now rewrite lookup_insert_ne.
Qed.

Lemma has_header_setitem r h v : has_header (setitem r h v) h = true.
Proof. unfold has_header, setitem. simpl. now rewrite lookup_insert_eq. Qed.

Lemma has_header_setitem_other r h h' v :
  lower h <> lower h' -> has_header (setitem r h v) h' = has_header r h'.
Proof.
  intros Hne. unfold has_header, setitem. simpl. now rewrite lookup_insert_ne.
Qed.

Lemma has_header_HttpResponse body mimetype h :
  lower h <> "content-type"%string ->
  has_header (HttpResponse body mimetype) h = false.
Proof.
  intros Hne. unfold has_header, HttpResponse. simpl.
  rewrite lookup_singleton_ne; [reflexivity|].
  intros Heq. apply Hne. now rewrite <- Heq.
Qed.

Lemma static_headers_status lib statobj encoding r :
  status_code (static_headers lib statobj encoding r) = status_code r /\
  content (static_headers lib statobj encoding r) = content r.
Proof.
  unfold static_headers.
  destruct (S_ISREG _), encoding as [e|]; try destruct (truthy e);
    split; reflexivity.
Qed.

Lemma static_headers_last_modified lib statobj encoding r :
  getitem (static_headers lib statobj encoding r) "Last-Modified" =
  Some (HStr (http_date lib (st_mtime statobj))).
Proof.
  unfold static_headers.
  destruct (S_ISREG _), encoding as [e|]; try destruct (truthy e);
    repeat (rewrite getitem_setitem_other by (vm_compute; discriminate));
    apply getitem_setitem.
Qed.

Lemma static_headers_content_length lib statobj encoding r :
  has_header r "Content-Length" = false ->
  has_header (static_headers lib statobj encoding r) "Content-Length" =
    S_ISREG (st_mode statobj) /\
  (S_ISREG (st_mode statobj) = true ->
   getitem (static_headers lib statobj encoding r) "Content-Length" =
     Some (HInt (st_size statobj))).
Proof.
  intros Hr. unfold static_headers.
  destruct (S_ISREG _), encoding as [e|]; try destruct (truthy e);
    (split; [|intros; try discriminate]);
    repeat (rewrite has_header_setitem_other by (vm_compute; discriminate));
    repeat (rewrite getitem_setitem_other by (vm_compute; discriminate));
    try apply has_header_setitem; try apply getitem_setitem; assumption.
Qed.

Lemma static_headers_content_encoding lib statobj encoding r :
  has_header r "Content-Encoding" = false ->
  has_header (static_headers lib statobj encoding r) "Content-Encoding" =
    detected encoding /\
  forall e, encoding = Some e -> truthy e = true ->
    getitem (static_headers lib statobj encoding r) "Content-Encoding" =
      Some (HStr e).
Proof.
  intros Hr. unfold static_headers, detected.
  destruct (S_ISREG _), encoding as [e|]; try destruct (truthy e) eqn:He;
    (split; [|intros e' He' Ht; try discriminate;
              try (injection He' as <-; try congruence)]);
    repeat (rewrite has_header_setitem_other by (vm_compute; discriminate));
    try apply has_header_setitem; try apply getitem_setitem; assumption.
Qed.

Lemma static_headers_other lib statobj encoding r h :
  own_header_name h ->
  getitem (static_headers lib statobj encoding r) h = getitem r h.
Proof.
  intros (Hlm & Hcl & Hce). unfold static_headers.
  destruct (S_ISREG _), encoding as [e|]; try destruct (truthy e);
    repeat (rewrite getitem_setitem_other
              by (intros Heq; rewrite <- Heq in *; vm_compute in *; congruence));
    reflexivity.
Qed.

End Headers.

(** ** Serving private media *)

Section Serving.
Import Os Django Views Reference Examples.

(** A path that exists and a request that asks for a file changed since:
    the call sends the file and then sets the static headers. *)
Lemma serve_modified lib conf (fs : filesystem) request path n :
  fs !! path = Some n ->
  was_modified_since lib (META request !! "HTTP_IF_MODIFIED_SINCE"%string)
                     (st_mtime (st n)) (st_size (st n)) = true ->
  serve_private_media lib conf fs request path =
    (response ← send conf fs path
                  (or_else (fst (guess_type lib path)) "application/octet-stream");
     Ok (static_headers lib (st n) (snd (guess_type lib path)) response)).
Proof.
  intros Hn Hmod. unfold serve_private_media, path_exists, stat.
  rewrite Hn. cbn [negb mbind result_bind].
  destruct (guess_type lib path) as [mimetype encoding].
  rewrite Hmod. reflexivity.
Qed.

(** A request that repeats the date of the file is answered with 304
    before the file is sent or any root is checked. *)
Lemma serve_not_modified lib conf (fs : filesystem) request path n :
  fs !! path = Some n ->
  was_modified_since lib (META request !! "HTTP_IF_MODIFIED_SINCE"%string)
                     (st_mtime (st n)) (st_size (st n)) = false ->
  serve_private_media lib conf fs request path =
    Ok (HttpResponseNotModified
          (or_else (fst (guess_type lib path)) "application/octet-stream")).
Proof.
  intros Hn Hmod. unfold serve_private_media, path_exists, stat.
  rewrite Hn. cbn [negb mbind result_bind].
  destruct (guess_type lib path) as [mimetype encoding].
  rewrite Hmod. reflexivity.
Qed.


(** What [send] leaves in the response: status 200 and, next to the
    content type, at most the delegation header. *)
Lemma send_response conf (fs : filesystem) path mimetype r :
  send conf fs path mimetype = Ok r ->
  status_code r = 200%Z /\
  forall h, lower h <> "content-type"%string ->
            (DEBUG conf = false -> lower h <> lower (SENDFILE_HEADER conf)) ->
            has_header r h = false.
Proof.
  unfold send, read, delegate. intros Hsend.
  destruct (DEBUG conf).
  - destruct (fs !! path) as [n|]; [|discriminate].
    destruct (readable n); [|discriminate].
    injection Hsend as <-. split; [reflexivity|].
    intros h Hct _. now apply has_header_HttpResponse.
  - destruct (truthy (SENDFILE_ROOT conf));
      [destruct (negb (startswith path (SENDFILE_ROOT conf))); [discriminate|]|];
      injection Hsend as <-; (split; [reflexivity|]);
      intros h Hct Hown;
      (rewrite has_header_setitem_other by (intros Heq; now apply Hown);
       now apply has_header_HttpResponse).
Qed.

(** C6. A path that does not exist makes the call fail with [Http404],
    whose message is one fixed sentence: it is the same for every path and
    holds no part of it. *)
Theorem serve_missing_path lib conf (fs : filesystem) request path :
  path_exists fs path = false ->
  serve_private_media lib conf fs request path =
    Raise (Http404 "Requested file doesn't exist.").
Proof.
  intros Hmissing. unfold serve_private_media. now rewrite Hmissing.
Qed.

Lemma serve_missing_path_witness :
  path_exists disk "/data/secret/plan.jpg" = false /\
  serve_private_media stock production disk plain_get "/data/secret/plan.jpg" =
    Raise (Http404 "Requested file doesn't exist.").
Proof.
  split; [reflexivity|].
  apply (serve_missing_path stock production disk plain_get); reflexivity.
Defined.




End Serving.

Section StaticHeaders.
Import Os Django Views Reference Examples.

(** C7, as stated, fails: the 304 response is a response of the call, and
    it carries neither [Last-Modified] nor, for a regular file,
    [Content-Length]. *)
Lemma not_modified_response_lacks_headers :
  exists r,
    serve_private_media stock production disk conditional_get "/data/a/x.jpg"
      = Ok r /\
    status_code r = 304%Z /\
    has_header r "Last-Modified" = false /\
    S_ISREG (st_mode (st (regular 30 "photo"))) = true /\
    has_header r "Content-Length" = false.
Proof. eexists. split; [vm_compute; reflexivity|]. repeat split; reflexivity. Qed.

(** C7, amended. Every response with status 200 that the call returns (every
    response but the 304 short-circuit) carries [Last-Modified] with the
    HTTP date of the file's [mtime]; it carries [Content-Length], holding
    the file's size, exactly when the file is a regular file; and it
    carries [Content-Encoding], holding the encoding, exactly when the type
    sniff on the path detected one.  Outside debug mode this supposes that
    the delegation header has a name of its own. *)
Theorem served_response_headers lib conf (fs : filesystem) request path r :
  serve_private_media lib conf fs request path = Ok r ->
  status_code r = 200%Z ->
  (DEBUG conf = false -> own_header_name (SENDFILE_HEADER conf)) ->
  exists n,
    fs !! path = Some n /\
    getitem r "Last-Modified" = Some (HStr (http_date lib (st_mtime (st n)))) /\
    has_header r "Content-Length" = S_ISREG (st_mode (st n)) /\
    (S_ISREG (st_mode (st n)) = true ->
     getitem r "Content-Length" = Some (HInt (st_size (st n)))) /\
    has_header r "Content-Encoding" = detected (snd (guess_type lib path)) /\
    (forall e, snd (guess_type lib path) = Some e -> truthy e = true ->
               getitem r "Content-Encoding" = Some (HStr e)).
Proof.
  intros Hserve Hstatus Hown.
  destruct (fs !! path) as [n|] eqn:Hn.
  2:{ unfold serve_private_media, path_exists in Hserve.
      rewrite Hn in Hserve. discriminate. }
  exists n. split; [reflexivity|].
  destruct (was_modified_since lib (META request !! "HTTP_IF_MODIFIED_SINCE"%string)
              (st_mtime (st n)) (st_size (st n))) eqn:Hmod.
  2:{ rewrite (serve_not_modified lib conf fs request path n Hn Hmod) in Hserve.
      injection Hserve as <-. discriminate. }
  rewrite (serve_modified lib conf fs request path n Hn Hmod) in Hserve.
  destruct (send conf fs path _) as [sent|e] eqn:Hsend; [|discriminate].
  cbn [mbind result_bind] in Hserve. injection Hserve as <-.
  destruct (send_response conf fs path _ sent Hsend) as [_ Hsent].
  assert (Hcl : has_header sent "Content-Length" = false).
  { apply Hsent; [vm_compute; discriminate|].
    intros Hd Heq. destruct (Hown Hd) as (_ & Hne & _). now rewrite <- Heq in Hne. }
  assert (Hce : has_header sent "Content-Encoding" = false).
  { apply Hsent; [vm_compute; discriminate|].
    intros Hd Heq. destruct (Hown Hd) as (_ & _ & Hne). now rewrite <- Heq in Hne. }
  split; [apply static_headers_last_modified|].
  destruct (static_headers_content_length lib (st n)
              (snd (guess_type lib path)) sent Hcl) as [Hhas Hval].
  destruct (static_headers_content_encoding lib (st n)
              (snd (guess_type lib path)) sent Hce) as [Hhas' Hval'].
  repeat split; assumption.
Qed.

Lemma served_response_headers_witness :
  exists r,
    serve_private_media stock production disk plain_get "/data/pipe" = Ok r /\
    status_code r = 200%Z /\
    (DEBUG production = false -> own_header_name (SENDFILE_HEADER production)) /\
    exists n,
      disk !! "/data/pipe"%string = Some n /\
      getitem r "Last-Modified" =
        Some (HStr (http_date stock (st_mtime (st n)))) /\
      has_header r "Content-Length" = S_ISREG (st_mode (st n)) /\
      (S_ISREG (st_mode (st n)) = true ->
       getitem r "Content-Length" = Some (HInt (st_size (st n)))) /\
      has_header r "Content-Encoding" = detected (snd (guess_type stock "/data/pipe")) /\
      (forall e, snd (guess_type stock "/data/pipe") = Some e -> truthy e = true ->
                 getitem r "Content-Encoding" = Some (HStr e)).
Proof.
  assert (Hown : DEBUG production = false ->
                 own_header_name (SENDFILE_HEADER production)).
  { intros _. repeat split; vm_compute; discriminate. }
  destruct (serve_private_media stock production disk plain_get "/data/pipe")
    as [r|e] eqn:Hserve; [|vm_compute in Hserve; discriminate].
  assert (Hstatus : status_code r = 200%Z).
  { vm_compute in Hserve. injection Hserve as <-. reflexivity. }
  exists r. split; [reflexivity|]. split; [exact Hstatus|]. split; [exact Hown|].
  exact (served_response_headers stock production disk plain_get "/data/pipe" r
           Hserve Hstatus Hown).
Defined.

(** C9, as stated, fails: in debug mode a path that exists and was
    modified, but that cannot be opened for reading (here a directory),
    gets no 200 response: [open] raises [IOError]. *)
Lemma debug_mode_unreadable_path :
  DEBUG development = true /\
  path_exists disk_with_folder "/data/a" = true /\
  was_modified_since stock (META plain_get !! "HTTP_IF_MODIFIED_SINCE"%string)
                     30 4096 = true /\
  serve_private_media stock development disk_with_folder plain_get "/data/a"
    = Raise IOError /\
  ~ (exists r,
       serve_private_media stock development disk_with_folder plain_get "/data/a"
         = Ok r /\ status_code r = 200%Z).
Proof.
  assert (Hserve :
    serve_private_media stock development disk_with_folder plain_get "/data/a"
      = Raise IOError) by (vm_compute; reflexivity).
  repeat (split; [first [reflexivity | exact Hserve]|]).
  intros (r & Hr & _). rewrite Hserve in Hr. discriminate.
Qed.

(** C9, amended. In debug mode the call never raises the root error and
    never looks at the root: for every existing path, under the root or
    not, that the request does not find unmodified, it returns a 200
    response whose body is the content of the file when the path can be
    opened for reading, and raises [IOError] when it cannot. *)
Theorem debug_mode_skips_root_check lib conf (fs : filesystem) request path :
  DEBUG conf = true ->
  (forall msg,
     serve_private_media lib conf fs request path <> Raise (ValueError msg)) /\
  (forall n,
     fs !! path = Some n ->
     was_modified_since lib (META request !! "HTTP_IF_MODIFIED_SINCE"%string)
                        (st_mtime (st n)) (st_size (st n)) = true ->
     (readable n = true ->
      exists r,
        serve_private_media lib conf fs request path = Ok r /\
        status_code r = 200%Z /\
        content r = data n) /\
     (readable n = false ->
      serve_private_media lib conf fs request path = Raise IOError)).
Proof.
  intros Hdebug. split.
  - intros msg. unfold serve_private_media, path_exists, stat.
    destruct (fs !! path) as [n|] eqn:Hn; [|discriminate].
    cbn [negb mbind result_bind].
    destruct (guess_type lib path) as [mimetype encoding].
    destruct (negb _); [discriminate|].
    unfold send, read. rewrite Hdebug, Hn.
    destruct (readable n); discriminate.
  - intros n Hn Hmod.
    rewrite (serve_modified lib conf fs request path n Hn Hmod).
    unfold send, read. rewrite Hdebug, Hn. split; intros ->.
    + cbn [mbind result_bind]. eexists. split; [reflexivity|].
      destruct (static_headers_status lib (st n) (snd (guess_type lib path))
                  (HttpResponse (data n)
                     (or_else (fst (guess_type lib path))
                              "application/octet-stream")))
        as [-> ->].
      repeat split.
    + reflexivity.
Qed.

End StaticHeaders.

Section DebugWitness.
Import Os Django Views Examples.

Lemma debug_mode_skips_root_check_witness :
  DEBUG development = true /\
  startswith "/other/x.jpg" (SENDFILE_ROOT development) = false /\
  readable (regular 30 "elsewhere") = true /\
  exists r,
    serve_private_media stock development disk plain_get "/other/x.jpg" = Ok r /\
    status_code r = 200%Z /\
    content r = "elsewhere"%string.
Proof.
  split; [reflexivity|]. split; [reflexivity|]. split; [reflexivity|].
  destruct (debug_mode_skips_root_check stock development disk plain_get
              "/other/x.jpg" eq_refl) as [_ Hserved].
  exact (proj1 (Hserved (regular 30 "elsewhere") eq_refl eq_refl) eq_refl).
Defined.

End DebugWitness.

(** ** Filename sanitization *)

Section Asciify.
Import Views Examples.
Local Open Scope N_scope.

(** Encoding with [ignore] keeps the code points below 128, in order, and
    nothing else. *)
Lemma bytes_of_encode_ascii_ignore u :
  bytes_of (encode_ascii_ignore u) = List.filter (fun c => c <? 128) u.
Proof.
  induction u as [|c u IH]; simpl; [reflexivity|].
  destruct (N.ltb_spec c 128); simpl; [|assumption].
  rewrite N_ascii_embedding by lia. now rewrite IH.
Qed.

(** C8. On a [unicode] value [asciify] never raises: it returns the byte
    string made of the code points below 128 of the NFKD normal form, in
    order.  With the decompositions the Unicode database gives for the
    three sample strings, [asciify] maps [cafe] (with its e acute) to
    "Cafe", the empty string to itself and the three ideographs of
    [nihongo] to the empty string. *)
Theorem asciify_unicode (normalize : string -> list N -> list N) :
  normalize "NFKD"%string [] = [] ->
  normalize "NFKD"%string cafe = [67; 97; 102; 101; 769] ->
  normalize "NFKD"%string nihongo = nihongo ->
  (forall u, exists s,
     asciify normalize (PyUnicode u) = Ok s /\
     bytes_of s = List.filter (fun c => c <? 128) (normalize "NFKD"%string u)) /\
  asciify normalize (PyUnicode cafe) = Ok "Cafe"%string /\
  asciify normalize (PyUnicode []) = Ok ""%string /\
  asciify normalize (PyUnicode nihongo) = Ok ""%string.
Proof.
  intros Hempty Hcafe Hnihongo. unfold asciify. cbn [unicode mbind result_bind].
  rewrite Hempty, Hcafe, Hnihongo. repeat split.
  intros u. eexists. split; [reflexivity|]. apply bytes_of_encode_ascii_ignore.
Qed.

Lemma asciify_unicode_witness :
  (normalize_sample "NFKD" [] = [] /\
   normalize_sample "NFKD" cafe = [67; 97; 102; 101; 769] /\
   normalize_sample "NFKD" nihongo = nihongo) /\
  (forall u, exists s,
     asciify normalize_sample (PyUnicode u) = Ok s /\
     bytes_of s = List.filter (fun c => c <? 128) (normalize_sample "NFKD" u)) /\
  asciify normalize_sample (PyUnicode cafe) = Ok "Cafe"%string /\
  asciify normalize_sample (PyUnicode []) = Ok ""%string /\
  asciify normalize_sample (PyUnicode nihongo) = Ok ""%string.
Proof.
  split; [repeat split; reflexivity|].
  apply (asciify_unicode normalize_sample); reflexivity.
Defined.

(** A byte string with a byte above 127 is outside this guarantee:
    [unicode(value)] fails to decode it. *)
Lemma asciify_byte_string_may_raise normalize :
  asciify normalize (PyStr (String (ascii_of_N 233) EmptyString)) =
    Raise UnicodeDecodeError.
Proof. reflexivity. Qed.

End Asciify.

(** * Further properties *)

(** ** The thumbnail engine as a whole *)

Section ThumbnailEngine.
Import Image Os Django Imgutil Examples Studio.

(** X1. When the source cannot be opened (the path is missing or the
    decoder rejects the file), the call raises that very error and leaves
    the filesystem as it was: no thumbnail is created. *)
Theorem make_thumbnail_unreadable_source lib conf (fs : filesystem)
    imagepath thumbpath (size : Z * Z) (crop : bool) e :
  open lib fs imagepath = Raise e ->
  make_thumbnail lib conf fs imagepath thumbpath size crop = (Raise e, fs).
Proof.
  intros Hopen. unfold make_thumbnail. rewrite Hopen. reflexivity.
Qed.

Lemma make_thumbnail_unreadable_source_witness :
  open darkroom shelf "/data/a/empty.jpg" = Raise IOError /\
  make_thumbnail darkroom production shelf
    "/data/a/empty.jpg" "/data/a/empty_thumb.jpg" (2, 2)%Z true =
    (Raise IOError, shelf).
Proof.
  split; [reflexivity|].
  apply (make_thumbnail_unreadable_source darkroom production shelf). reflexivity.
Defined.

(** X2. Whatever happens, the call touches no path but the target: every
    other path names after the call what it named before. *)
Theorem make_thumbnail_touches_target_only lib conf (fs : filesystem)
    imagepath thumbpath (size : Z * Z) (crop : bool) (p : string) :
  p <> thumbpath ->
  (snd (make_thumbnail lib conf fs imagepath thumbpath size crop) : filesystem)
    !! p = fs !! p.
Proof.
  intros Hp. unfold make_thumbnail, cleanup.
  destruct (_ ≫= _) as [image|e]; [|reflexivity].
  cbv zeta. destruct (save lib _ thumbpath _) as [n|e [n|]]; simpl.
  - now rewrite lookup_insert_ne.
  - destruct (is_IOError e); simpl; now rewrite lookup_insert_ne.
  - destruct (is_IOError e); reflexivity.
Qed.

Lemma make_thumbnail_touches_target_only_witness :
  "/data/a/x.jpg"%string <> "/data/a/x_thumb.jpg"%string /\
  (snd (make_thumbnail darkroom production shelf
          "/data/a/x.jpg" "/data/a/x_thumb.jpg" (2, 2)%Z true) : filesystem)
    !! "/data/a/x.jpg"%string = shelf !! "/data/a/x.jpg"%string.
Proof.
  assert (Hne : "/data/a/x.jpg"%string <> "/data/a/x_thumb.jpg"%string)
    by discriminate.
  split; [exact Hne|].
  exact (make_thumbnail_touches_target_only darkroom production shelf
           "/data/a/x.jpg" "/data/a/x_thumb.jpg" (2, 2)%Z true
           "/data/a/x.jpg" Hne).
Defined.

(** X3. A call returns normally only when every step succeeded, and then
    it has left at the target exactly the file the encoder wrote for the
    image that was opened at the source, auto-rotated, pre-cropped when
    crop was requested, and resized. *)
Theorem make_thumbnail_success lib conf (fs : filesystem)
    imagepath thumbpath (size : Z * Z) (crop : bool) :
  fst (make_thumbnail lib conf fs imagepath thumbpath size crop) = Ok tt ->
  exists image prepared n,
    open lib fs imagepath = Ok image /\
    (if crop then precrop size (auto_rotate image)
     else Ok (auto_rotate image)) = Ok prepared /\
    save lib (thumbnail lib prepared size) thumbpath
         (save_options conf (thumbnail lib prepared size)) = Written n /\
    snd (make_thumbnail lib conf fs imagepath thumbpath size crop) =
      <[thumbpath := n]> fs /\
    path_exists (snd (make_thumbnail lib conf fs imagepath thumbpath size crop))
                thumbpath = true.
Proof.
  unfold make_thumbnail, cleanup.
  destruct (open lib fs imagepath) as [image|e] eqn:Hopen;
    cbn [mbind result_bind]; [|discriminate].
  cbv zeta.
  destruct (if crop then precrop size (auto_rotate image)
            else Ok (auto_rotate image)) as [prepared|e] eqn:Hprepared;
    [|discriminate].
  destruct (save lib _ thumbpath _) as [n|e [n|]] eqn:Hsave; simpl.
  - intros _. exists image, prepared, n.
    split; [reflexivity|]. split; [exact Hprepared|]. split; [exact Hsave|].
    split; [reflexivity|].
    unfold path_exists. now rewrite lookup_insert_eq.
  - destruct (is_IOError e); discriminate.
  - destruct (is_IOError e); discriminate.
Qed.

Lemma make_thumbnail_success_witness :
  fst (make_thumbnail darkroom production shelf
         "/data/a/x.jpg" "/data/a/x_thumb.jpg" (2, 2)%Z true) = Ok tt /\
  exists image prepared n,
    open darkroom shelf "/data/a/x.jpg" = Ok image /\
    precrop (2, 2)%Z (auto_rotate image) = Ok prepared /\
    save darkroom (thumbnail darkroom prepared (2, 2)%Z) "/data/a/x_thumb.jpg"
         (save_options production (thumbnail darkroom prepared (2, 2)%Z))
      = Written n /\
    snd (make_thumbnail darkroom production shelf
           "/data/a/x.jpg" "/data/a/x_thumb.jpg" (2, 2)%Z true) =
      <["/data/a/x_thumb.jpg"%string := n]> shelf /\
    path_exists (snd (make_thumbnail darkroom production shelf
                        "/data/a/x.jpg" "/data/a/x_thumb.jpg" (2, 2)%Z true))
                "/data/a/x_thumb.jpg" = true.
Proof.
  assert (Hok : fst (make_thumbnail darkroom production shelf
                       "/data/a/x.jpg" "/data/a/x_thumb.jpg" (2, 2)%Z true)
                = Ok tt) by (vm_compute; reflexivity).
  split; [exact Hok|].
  exact (make_thumbnail_success darkroom production shelf
           "/data/a/x.jpg" "/data/a/x_thumb.jpg" (2, 2)%Z true Hok).
Defined.

End ThumbnailEngine.

(** ** Pre-crop: errors and content *)

Section PreCropMore.
Import Image Imgutil Examples.
Local Open Scope Z_scope.

(** X4. The only error the pre-crop arithmetic can raise is
    [ZeroDivisionError], and it raises it exactly when the branch it takes
    divides by a zero target side: a zero target width with
    [sw * th < 0], or a zero target height with [tw * sh < 0].  In
    particular it never fails on sizes that are not negative. *)
Theorem precrop_box_errors (tw th sw sh : Z) :
  (forall e, precrop_box (tw, th) (sw, sh) = Raise e -> e = ZeroDivisionError) /\
  (precrop_box (tw, th) (sw, sh) = Raise ZeroDivisionError <->
   (tw = 0 /\ sw * th < 0) \/ (th = 0 /\ tw * sh < 0)) /\
  (0 <= tw -> 0 <= th -> 0 <= sw -> 0 <= sh ->
   exists box, precrop_box (tw, th) (sw, sh) = Ok box).
Proof.
  assert (Hcases :
    (precrop_box (tw, th) (sw, sh) = Raise ZeroDivisionError /\
     ((tw = 0 /\ sw * th < 0) \/ (th = 0 /\ tw * sh < 0))) \/
    ((exists box, precrop_box (tw, th) (sw, sh) = Ok box) /\
     ~ ((tw = 0 /\ sw * th < 0) \/ (th = 0 /\ tw * sh < 0)))).
  { unfold precrop_box, floordiv. rewrite Z.gtb_ltb.
    destruct (Z.ltb_spec (sw * th) (tw * sh)) as [Hwide|Hnw].
    - destruct (Z.eqb_spec tw 0) as [->|Htw]; cbn [mbind result_bind].
      + left. split; [reflexivity|]. left. lia.
      + right. split; [eexists; reflexivity|]. nia.
    - destruct (Z.ltb_spec (tw * sh) (sw * th)) as [Htall|Hnt].
      + destruct (Z.eqb_spec th 0) as [->|Hth]; cbn [mbind result_bind].
        * left. split; [reflexivity|]. right. lia.
        * right. split; [eexists; reflexivity|]. nia.
      + right. split; [eexists; reflexivity|]. nia. }
  split; [|split].
  - intros e He. destruct Hcases as [[Hr _]|[[box Hb] _]]; congruence.
  - split.
    + intros Hr. destruct Hcases as [[_ Hc]|[[box Hb] _]]; [exact Hc|congruence].
    + intros Hc. destruct Hcases as [[Hr _]|[_ Hn]]; [exact Hr|contradiction].
  - intros Htw Hth Hsw Hsh.
    destruct Hcases as [[_ Hc]|[Hb _]]; [nia|exact Hb].
Qed.

Lemma map_seq_nth {A} (f : nat -> A) (d : A) n i :
  (i < n)%nat -> nth i (map f (seq 0 n)) d = f i.
Proof.
  intros Hi. rewrite (nth_indep _ d (f 0%nat)) by (now rewrite length_map, length_seq).
  rewrite (map_nth f (seq 0 n) 0%nat i). now rewrite seq_nth.
Qed.

(** A cropped image is a well-formed matrix, whatever the box. *)
Lemma crop_wf im box : wf (crop im box).
Proof.
  destruct box as [[[x0 y0] x1] y1]. unfold wf, crop. cbn [new_image rows width height].
  split.
  - now rewrite length_map, length_seq.
  - apply List.Forall_forall. intros r Hr. apply in_map_iff in Hr as (j & <- & _).
    now rewrite length_map, length_seq.
Qed.

(** Inside the box, a pixel of the cropped image is the pixel of the
    source at the same place, counted from the corner of the box. *)
Lemma crop_getpixel im x0 y0 x1 y1 x y :
  0 <= x < x1 - x0 -> 0 <= y < y1 - y0 ->
  getpixel (crop im (x0, y0, x1, y1)) x y = getpixel im (x0 + x) (y0 + y).
Proof.
  intros Hx Hy. unfold getpixel at 1, crop. cbn [new_image rows].
  destruct (Z.leb_spec 0 x); [|lia]. destruct (Z.leb_spec 0 y); [|lia].
  cbn [andb].
  rewrite (map_seq_nth _ []) by lia.
  rewrite map_seq_nth by lia.
  now rewrite !Z2Nat.id by lia.
Qed.

(** X10. On a source of positive size and a positive target size the
    pre-crop step returns a well-formed image that is no larger than the
    source in either direction, and that shows a window of the source:
    there is an offset inside the source such that every pixel of the
    result is the source pixel at that offset from it, so no padding ever
    enters the picture. *)
Theorem precrop_is_a_window (im : image) (tw th : Z) :
  wf im ->
  0 < tw -> 0 < th -> 0 < fst (size im) -> 0 < snd (size im) ->
  exists result left top,
    precrop (tw, th) im = Ok result /\
    wf result /\
    0 <= left /\ 0 <= top /\
    left + fst (size result) <= fst (size im) /\
    top + snd (size result) <= snd (size im) /\
    forall x y,
      0 <= x < fst (size result) -> 0 <= y < snd (size result) ->
      getpixel result x y = getpixel im (left + x) (top + y).
Proof.
  intros Hwf Htw Hth Hsw Hsh.
  unfold precrop.
  change (size im) with (Z.of_nat (width im), Z.of_nat (height im)) in *.
  cbn [fst snd] in Hsw, Hsh |- *.
  set (sw := Z.of_nat (width im)) in *. set (sh := Z.of_nat (height im)) in *.
  rewrite precrop_box_cases by assumption.
  pose proof (floor_bounds (sw * th) tw Htw) as Hh.
  pose proof (floor_bounds (sh * tw) th Hth) as Hw.
  assert (0 <= sw * th / tw) as Hh0 by (apply Z.div_pos; lia).
  assert (0 <= sh * tw / th) as Hw0 by (apply Z.div_pos; lia).
  rewrite Z.gtb_ltb.
  destruct (Z.ltb_spec (sw * th) (tw * sh)) as [Hwide|Hnw].
  - assert (sw * th / tw < sh) as Hlt by nia.
    pose proof (floor_bounds (sh - sw * th / tw) 2 ltac:(lia)) as Ht.
    assert (0 <= (sh - sw * th / tw) / 2) by (apply Z.div_pos; lia).
    eexists _, 0, ((sh - sw * th / tw) / 2).
    cbn [mbind result_bind].
    split; [reflexivity|]. split; [apply crop_wf|].
    rewrite crop_size by lia. cbn [fst snd].
    repeat (split; [lia|]).
    intros x y Hx Hy. apply crop_getpixel; lia.
  - destruct (Z.ltb_spec (tw * sh) (sw * th)) as [Htall|Hnt].
    + assert (sh * tw / th < sw) as Hlt by nia.
      pose proof (floor_bounds (sw - sh * tw / th) 2 ltac:(lia)) as Ht.
      assert (0 <= (sw - sh * tw / th) / 2) by (apply Z.div_pos; lia).
      eexists _, ((sw - sh * tw / th) / 2), 0.
      cbn [mbind result_bind].
      split; [reflexivity|]. split; [apply crop_wf|].
      rewrite crop_size by lia. cbn [fst snd].
      repeat (split; [lia|]).
      intros x y Hx Hy. apply crop_getpixel; lia.
    + exists im, 0, 0. cbn [mbind result_bind].
      split; [reflexivity|]. split; [exact Hwf|].
      change (size im) with (sw, sh). cbn [fst snd].
      repeat (split; [lia|]).
      intros x y _ _. reflexivity.
Qed.

Lemma precrop_is_a_window_witness :
  wf (snapshot (PyInt 1)) /\
  (0 < 4 /\ 0 < 3 /\
   0 < fst (size (snapshot (PyInt 1))) /\ 0 < snd (size (snapshot (PyInt 1)))) /\
  exists result left top,
    precrop (4, 3) (snapshot (PyInt 1)) = Ok result /\
    wf result /\
    0 <= left /\ 0 <= top /\
    left + fst (size result) <= fst (size (snapshot (PyInt 1))) /\
    top + snd (size result) <= snd (size (snapshot (PyInt 1))) /\
    forall x y,
      0 <= x < fst (size result) -> 0 <= y < snd (size result) ->
      getpixel result x y = getpixel (snapshot (PyInt 1)) (left + x) (top + y).
Proof.
  assert (Hwf : wf (snapshot (PyInt 1))).
  { split; [reflexivity|]. repeat constructor. }
  split; [exact Hwf|]. split; [cbn; lia|].
  apply (precrop_is_a_window (snapshot (PyInt 1)) 4 3 Hwf); cbn; lia.
Defined.

End PreCropMore.

(** ** Transpositions and the orientation table *)

Create HintDb matrix.
#[local] Hint Resolve Forall_length_rev Forall_length_map_rev
  columns_heights_eq : matrix.
#[local] Hint Extern 1 (length _ = _) =>
  rewrite ?length_map, ?length_rev; reflexivity : matrix.

Ltac matrix_norm :=
  repeat first
    [ rewrite map_rev_involutive
    | rewrite rev_involutive
    | rewrite columns_involutive by auto with matrix
    | rewrite columns_rev by auto with matrix
    | rewrite columns_map_rev by auto with matrix
    | rewrite <- map_rev ].

Section Transpositions.
Import Image Imgutil Examples Studio.

(** Transpositions keep the matrix well-formed. *)
Lemma transpose_keeps_wf (im : image) (m : method) :
  wf im -> wf (transpose im m).
Proof.
  intros [Hh Hw]. destruct im as [fmt w h rs ex]. simpl in Hh, Hw. subst h.
  unfold wf.
  destruct m; cbn [transpose new_image rows width height]; split;
    rewrite ?length_rev, ?length_map, ?columns_length by assumption;
    auto with matrix.
Qed.

(** X5. Every transposition turns a well-formed image into a well-formed
    image; the flips and the half turn keep its size, the two quarter
    turns exchange width and height. *)
Theorem transpose_wf_size (im : image) (m : method) :
  wf im ->
  wf (transpose im m) /\
  size (transpose im m) =
    match m with
    | ROTATE_90 | ROTATE_270 => swap (size im)
    | _ => size im
    end.
Proof.
  intros Hwf. split; [now apply transpose_keeps_wf|].
  destruct m; reflexivity.
Qed.

Lemma transpose_wf_size_witness :
  wf (snapshot (PyInt 1)) /\
  wf (transpose (snapshot (PyInt 1)) ROTATE_90) /\
  size (transpose (snapshot (PyInt 1)) ROTATE_90) = (2, 3)%Z.
Proof.
  assert (Hwf : wf (snapshot (PyInt 1))).
  { split; [reflexivity|]. repeat constructor. }
  split; [exact Hwf|].
  exact (transpose_wf_size (snapshot (PyInt 1)) ROTATE_90 Hwf).
Defined.

End Transpositions.

Section OrientationTable.
Import Image Imgutil Examples Studio.

(** What indexing the table can give: [None] or one of its eight
    transforms. *)
Lemma exif_rotations_entries v entry :
  tuple_getitem exif_rotations v = Ok entry ->
  In entry exif_rotations.
Proof.
  unfold tuple_getitem. destruct v as [n|repr]; [|discriminate].
  destruct (_ && _); [|discriminate].
  destruct (nth_error _ _) as [x|] eqn:Hnth; [|discriminate].
  intros [= <-]. eapply nth_error_In. exact Hnth.
Qed.

(** Each transform of the table keeps images well-formed and keeps or
    exchanges the two sides. *)
Lemma exif_rotations_keep_wf f im :
  In (Some f) exif_rotations ->
  wf im ->
  wf (f im) /\ (size (f im) = size im \/ size (f im) = swap (size im)).
Proof.
  intros Hin Hwf. unfold exif_rotations in Hin. simpl in Hin.
  repeat (destruct Hin as [Heq|Hin]; [try discriminate; injection Heq as <-|]);
    try contradiction; cbv beta.
  - split; [assumption|now left].
  - pose proof (transpose_keeps_wf im FLIP_LEFT_RIGHT Hwf) as H1. split; [exact H1|now left].
  - pose proof (transpose_keeps_wf im ROTATE_180 Hwf) as H1. split; [exact H1|now left].
  - pose proof (transpose_keeps_wf im FLIP_TOP_BOTTOM Hwf) as H1. split; [exact H1|now left].
  - pose proof (transpose_keeps_wf im ROTATE_270 Hwf) as H1.
    pose proof (transpose_keeps_wf _ FLIP_LEFT_RIGHT H1) as H3.
    split; [exact H3|right; reflexivity].
  - pose proof (transpose_keeps_wf im ROTATE_270 Hwf) as H1. split; [exact H1|now right].
  - pose proof (transpose_keeps_wf im ROTATE_90 Hwf) as H1.
    pose proof (transpose_keeps_wf _ FLIP_LEFT_RIGHT H1) as H3.
    split; [exact H3|right; reflexivity].
  - pose proof (transpose_keeps_wf im ROTATE_90 Hwf) as H1. split; [exact H1|now right].
Qed.

(** X6. Whatever the EXIF data holds, the auto-rotate step turns a
    well-formed image into a well-formed image whose size is the size of
    the source or that size with its sides exchanged. *)
Theorem auto_rotate_wf_size (im : image) :
  wf im ->
  wf (auto_rotate im) /\
  (size (auto_rotate im) = size im \/ size (auto_rotate im) = swap (size im)).
Proof.
  intros Hwf. unfold auto_rotate, rotate_by_exif.
  case_bool_decide; [|split; [assumption|now left]].
  destruct (read_orientation im) as [v|e]; cbn [mbind result_bind];
    [|split; [assumption|now left]].
  destruct (tuple_getitem exif_rotations v) as [entry|e] eqn:Hentry;
    cbn [mbind result_bind]; [|split; [assumption|now left]].
  destruct entry as [f|]; cbn [call]; [|split; [assumption|now left]].
  apply exif_rotations_keep_wf; [|assumption].
  eapply exif_rotations_entries. exact Hentry.
Qed.

Lemma auto_rotate_wf_size_witness :
  wf (snapshot (PyInt 6)) /\
  wf (auto_rotate (snapshot (PyInt 6))) /\
  (size (auto_rotate (snapshot (PyInt 6))) = size (snapshot (PyInt 6)) \/
   size (auto_rotate (snapshot (PyInt 6))) = swap (size (snapshot (PyInt 6)))).
Proof.
  assert (Hwf : wf (snapshot (PyInt 6))).
  { split; [reflexivity|]. repeat constructor. }
  split; [exact Hwf|]. exact (auto_rotate_wf_size (snapshot (PyInt 6)) Hwf).
Defined.

(** X7. On a JPEG whose orientation tag holds a value from 1 to 8 the
    auto-rotate step applies the table entry of that value: the size is
    kept for 1 to 4 and has its sides exchanged for 5 to 8; the value 1
    returns the image itself, while every other value returns a derived
    image, which has no format. *)
Theorem auto_rotate_by_orientation (im : image) (o : Z) :
  format im = Some "JPEG"%string ->
  read_orientation im = Ok (PyInt o) ->
  (1 <= o <= 8)%Z ->
  (exists f, tuple_getitem exif_rotations (PyInt o) = Ok (Some f) /\
             auto_rotate im = f im) /\
  size (auto_rotate im) = (if (o <=? 4)%Z then size im else swap (size im)) /\
  (o = 1%Z -> auto_rotate im = im) /\
  (o <> 1%Z -> format (auto_rotate im) = None).
Proof.
  intros Hfmt Hread Ho. unfold auto_rotate, rotate_by_exif.
  rewrite Hread. rewrite bool_decide_eq_true_2 by assumption.
  cbn [mbind result_bind].
  assert (Hcases : (o = 1 \/ o = 2 \/ o = 3 \/ o = 4 \/
                    o = 5 \/ o = 6 \/ o = 7 \/ o = 8)%Z) by lia.
  repeat (destruct Hcases as [->|Hcases]); [idtac..|subst o];
    (split; [eexists; split; reflexivity|]);
    (split; [reflexivity|]);
    (split; [intros Hone; first [reflexivity | discriminate]|]);
    intros Hne; first [reflexivity | contradiction].
Qed.

Lemma auto_rotate_by_orientation_witness :
  (format (snapshot (PyInt 6)) = Some "JPEG"%string /\
   read_orientation (snapshot (PyInt 6)) = Ok (PyInt 6) /\
   (1 <= 6 <= 8)%Z) /\
  size (auto_rotate (snapshot (PyInt 6))) =
    (if (6 <=? 4)%Z then size (snapshot (PyInt 6))
     else swap (size (snapshot (PyInt 6)))).
Proof.
  split; [repeat split; try reflexivity; lia|].
  apply (auto_rotate_by_orientation (snapshot (PyInt 6)) 6);
    [reflexivity|reflexivity|lia].
Defined.

(** X8. The table is closed under inverses: the entries 6 and 8 undo each
    other and every other entry from 1 to 8 undoes itself, so that applying
    entry [o] and then the entry that undoes it gives back an image of the
    same size with the same pixels. *)
Theorem exif_rotations_closed_under_inverse (o : Z) (im : image) :
  (1 <= o <= 8)%Z ->
  wf im ->
  let o' := (if o =? 6 then 8 else if o =? 8 then 6 else o)%Z in
  exists f f',
    tuple_getitem exif_rotations (PyInt o) = Ok (Some f) /\
    tuple_getitem exif_rotations (PyInt o') = Ok (Some f') /\
    same_pixels (f' (f im)) im.
Proof.
  intros Ho [Hh Hw].
  destruct im as [fmt w h m ex]. simpl in Hh, Hw. subst h.
  assert (Hcases : (o = 1 \/ o = 2 \/ o = 3 \/ o = 4 \/
                    o = 5 \/ o = 6 \/ o = 7 \/ o = 8)%Z) by lia.
  unfold same_pixels.
  repeat (destruct Hcases as [->|Hcases]); [idtac..|subst o];
    (eexists; eexists; split; [reflexivity|split; [reflexivity|]]);
    cbn [transpose new_image width height rows];
    matrix_norm; repeat split; reflexivity.
Qed.

Lemma exif_rotations_closed_under_inverse_witness :
  (1 <= 6 <= 8)%Z /\ wf (snapshot (PyInt 6)) /\
  exists f f',
    tuple_getitem exif_rotations (PyInt 6) = Ok (Some f) /\
    tuple_getitem exif_rotations (PyInt 8) = Ok (Some f') /\
    same_pixels (f' (f (snapshot (PyInt 6)))) (snapshot (PyInt 6)).
Proof.
  assert (Hwf : wf (snapshot (PyInt 6))).
  { split; [reflexivity|]. repeat constructor. }
  split; [lia|]. split; [exact Hwf|].
  apply (exif_rotations_closed_under_inverse 6 (snapshot (PyInt 6))); [lia|exact Hwf].
Defined.

(** X9. The shortcut of entry 4 is right, as the comment in the table
    says: a half turn followed by a left-right flip is the top-bottom flip,
    on every image. *)
Theorem flip_top_bottom_shortcut (im : image) :
  transpose (transpose im ROTATE_180) FLIP_LEFT_RIGHT =
  transpose im FLIP_TOP_BOTTOM.
Proof.
  unfold transpose, new_image. cbn [rows width height].
  f_equal. rewrite <- map_rev. now rewrite map_rev_involutive.
Qed.

End OrientationTable.

(** ** Save options and derived images *)

Section SaveOptions.
Import Image Os Django Imgutil Examples Studio.

Lemma precrop_format (size : Z * Z) im r :
  precrop size im = Ok r -> r = im \/ format r = None.
Proof.
  unfold precrop. destruct (precrop_box size (Image.size im)) as [[box|]|e];
    cbn [mbind result_bind]; intros Hr; try discriminate; injection Hr as <-.
  - right. destruct box as [[[x0 y0] x1] y1]. reflexivity.
  - now left.
Qed.

(** An image without format is saved with no options, whatever the
    settings hold. *)
Lemma save_options_no_format conf im :
  format im = None -> save_options conf im = ∅.
Proof. intros Hfmt. unfold save_options. now rewrite Hfmt. Qed.

(** Once the prepared image has no format, the settings have no say in
    the rest of the call. *)
Lemma make_thumbnail_no_format lib conf conf' (fs : filesystem)
    imagepath thumbpath (size : Z * Z) (crop : bool) :
  (forall image size, format (thumbnail lib image size) = format image) ->
  (forall prepared,
     (image ← open lib fs imagepath;
      let image := auto_rotate image in
      if crop then precrop size image else Ok image) = Ok prepared ->
     format prepared = None) ->
  make_thumbnail lib conf fs imagepath thumbpath size crop =
  make_thumbnail lib conf' fs imagepath thumbpath size crop.
Proof.
  intros Hthumb Hprepared. unfold make_thumbnail.
  cbv zeta in Hprepared |- *.
  destruct (_ ≫= _) as [prepared|e]; [|reflexivity].
  rewrite !save_options_no_format
    by (rewrite Hthumb; now apply Hprepared).
  reflexivity.
Qed.

(** X11. For a JPEG whose orientation tag holds a value from 2 to 8 the
    per-format save options never reach the encoder: the rotated image is
    a derived image without format, so, the thumbnail step keeping the
    format as it finds it, the call does the same under any two
    settings. *)
Theorem save_options_lost_by_rotation lib conf conf' (fs : filesystem)
    imagepath thumbpath (size : Z * Z) (crop : bool) im (o : Z) :
  (forall image size, format (thumbnail lib image size) = format image) ->
  open lib fs imagepath = Ok im ->
  format im = Some "JPEG"%string ->
  read_orientation im = Ok (PyInt o) ->
  (2 <= o <= 8)%Z ->
  make_thumbnail lib conf fs imagepath thumbpath size crop =
  make_thumbnail lib conf' fs imagepath thumbpath size crop.
Proof.
  intros Hthumb Hopen Hfmt Hread Ho.
  apply make_thumbnail_no_format; [exact Hthumb|].
  intros prepared. rewrite Hopen. cbn [mbind result_bind]. cbv zeta.
  assert (Hnone : format (auto_rotate im) = None).
  { unfold auto_rotate, rotate_by_exif.
    rewrite Hread. rewrite bool_decide_eq_true_2 by assumption.
    cbn [mbind result_bind].
    assert (Hcases : (o = 2 \/ o = 3 \/ o = 4 \/
                      o = 5 \/ o = 6 \/ o = 7 \/ o = 8)%Z) by lia.
    repeat (destruct Hcases as [->|Hcases]); [idtac..|subst o]; reflexivity. }
  destruct crop.
  - intros Hpre. destruct (precrop_format _ _ _ Hpre) as [->|Hf]; assumption.
  - intros [= <-]. exact Hnone.
Qed.

Lemma save_options_lost_by_rotation_witness :
  ((forall image size, format (thumbnail darkroom image size) = format image) /\
   open darkroom shelf "/data/a/x.jpg" = Ok (snapshot (PyInt 6)) /\
   format (snapshot (PyInt 6)) = Some "JPEG"%string /\
   read_orientation (snapshot (PyInt 6)) = Ok (PyInt 6) /\
   (2 <= 6 <= 8)%Z) /\
  make_thumbnail darkroom production shelf
    "/data/a/x.jpg" "/data/a/x_thumb.jpg" (2, 2)%Z false =
  make_thumbnail darkroom development shelf
    "/data/a/x.jpg" "/data/a/x_thumb.jpg" (2, 2)%Z false.
Proof.
  split; [repeat split; try reflexivity; lia|].
  apply (save_options_lost_by_rotation darkroom production development shelf
           "/data/a/x.jpg" "/data/a/x_thumb.jpg" (2, 2)%Z false
           (snapshot (PyInt 6)) 6);
    [reflexivity|reflexivity|reflexivity|reflexivity|lia].
Defined.

(** X12. The same holds whenever the pre-crop step does crop: on a source
    that is not rotated, with crop requested and an aspect ratio that
    differs from the target's, the cropped image has no format and the
    call does the same under any two settings. *)
Theorem save_options_lost_by_crop lib conf conf' (fs : filesystem)
    imagepath thumbpath (tw th sw sh : Z) im :
  (forall image size, format (thumbnail lib image size) = format image) ->
  open lib fs imagepath = Ok im ->
  auto_rotate im = im ->
  Image.size im = (sw, sh) ->
  (0 < tw)%Z -> (0 < th)%Z ->
  (tw * sh <> sw * th)%Z ->
  make_thumbnail lib conf fs imagepath thumbpath (tw, th) true =
  make_thumbnail lib conf' fs imagepath thumbpath (tw, th) true.
Proof.
  intros Hthumb Hopen Hrot Hsize Htw Hth Hne.
  apply make_thumbnail_no_format; [exact Hthumb|].
  intros prepared. rewrite Hopen. cbn [mbind result_bind]. cbv zeta.
  rewrite Hrot. unfold precrop. rewrite Hsize.
  rewrite precrop_box_cases by assumption. rewrite Z.gtb_ltb.
  destruct (Z.ltb_spec (sw * th) (tw * sh)).
  - cbn [mbind result_bind]. intros [= <-]. reflexivity.
  - destruct (Z.ltb_spec (tw * sh) (sw * th)); [|lia].
    cbn [mbind result_bind]. intros [= <-]. reflexivity.
Qed.

Lemma save_options_lost_by_crop_witness :
  ((forall image size, format (thumbnail full_disk image size) = format image) /\
   open full_disk disk "/data/a/x.jpg" = Ok (snapshot (PyInt 1)) /\
   auto_rotate (snapshot (PyInt 1)) = snapshot (PyInt 1) /\
   Image.size (snapshot (PyInt 1)) = (3, 2)%Z /\
   (0 < 4)%Z /\ (0 < 3)%Z /\ (4 * 2 <> 3 * 3)%Z) /\
  make_thumbnail full_disk production disk
    "/data/a/x.jpg" "/data/a/x_thumb.jpg" (4, 3)%Z true =
  make_thumbnail full_disk development disk
    "/data/a/x.jpg" "/data/a/x_thumb.jpg" (4, 3)%Z true.
Proof.
  split; [repeat split; try reflexivity; lia|].
  apply (save_options_lost_by_crop full_disk production development disk
           "/data/a/x.jpg" "/data/a/x_thumb.jpg" 4 3 3 2 (snapshot (PyInt 1)));
    [reflexivity|reflexivity|reflexivity|reflexivity|lia|lia|lia].
Defined.

End SaveOptions.

(** ** More on serving private media *)

Section ServingMore.
Import Os Django Views Reference Examples.

Lemma startswith_slice (path root : string) :
  startswith path root = true ->
  (root ++ slice_from (String.length root) path)%string = path.
Proof.
  unfold startswith. revert path.
  induction root as [|c root IH]; intros path Hpre; [reflexivity|].
  destruct path as [|d path]; [discriminate|].
  simpl in Hpre. destruct (ascii_dec c d) as [->|]; [|discriminate].
  change (String d (root ++ slice_from (String.length root) path)%string
          = String d path).
  f_equal. now apply IH.
Qed.

(** X13. A request that finds the file unmodified is answered, in debug
    mode or not and whatever the root, with a 304 response that has an
    empty body and a single header: the content type, which is the sniffed
    type or [application/octet-stream] when the sniff finds none. *)
Theorem not_modified_response lib conf (fs : filesystem) request path n :
  fs !! path = Some n ->
  was_modified_since lib (META request !! "HTTP_IF_MODIFIED_SINCE"%string)
                     (st_mtime (st n)) (st_size (st n)) = false ->
  exists r,
    serve_private_media lib conf fs request path = Ok r /\
    status_code r = 304%Z /\
    content r = ""%string /\
    getitem r "Content-Type" =
      Some (HStr (match fst (guess_type lib path) with
                  | Some t => if truthy t then t else "application/octet-stream"
                  | None => "application/octet-stream"
                  end)%string) /\
    forall h, lower h <> "content-type"%string -> has_header r h = false.
Proof.
  intros Hn Hmod.
  rewrite (serve_not_modified lib conf fs request path n Hn Hmod).
  eexists. split; [reflexivity|]. repeat split.
  intros h Hh. unfold has_header, HttpResponseNotModified. cbn [_headers].
  rewrite lookup_singleton_ne; [reflexivity|].
  intros Heq. apply Hh. now rewrite <- Heq.
Qed.

Lemma not_modified_response_witness :
  (disk !! "/other/x.jpg"%string = Some (regular 30 "elsewhere") /\
   was_modified_since stock
     (META conditional_get !! "HTTP_IF_MODIFIED_SINCE"%string) 30 9 = false) /\
  exists r,
    serve_private_media stock development disk conditional_get "/other/x.jpg"
      = Ok r /\
    status_code r = 304%Z /\
    content r = ""%string /\
    getitem r "Content-Type" = Some (HStr "image/jpeg") /\
    forall h, lower h <> "content-type"%string -> has_header r h = false.
Proof.
  split; [split; reflexivity|].
  apply (not_modified_response stock development disk conditional_get
           "/other/x.jpg" (regular 30 "elsewhere")); reflexivity.
Defined.



(** X15. Outside debug mode, whenever the call returns a 200 response,
    the root followed by the value of the delegation header spells the
    path that was asked for: with an empty root the header holds the whole
    path, with a root it holds what follows the root.  The body is empty.
    (The delegation header has a name of its own.) *)
Theorem delegation_header_completes_root lib conf (fs : filesystem)
    request path r :
  DEBUG conf = false ->
  own_header_name (SENDFILE_HEADER conf) ->
  serve_private_media lib conf fs request path = Ok r ->
  status_code r = 200%Z ->
  content r = ""%string /\
  exists v,
    getitem r (SENDFILE_HEADER conf) = Some (HStr v) /\
    (SENDFILE_ROOT conf ++ v)%string = path.
Proof.
  intros Hdebug Hown Hserve Hstatus.
  destruct (fs !! path) as [n|] eqn:Hn.
  2:{ unfold serve_private_media, path_exists in Hserve.
      rewrite Hn in Hserve. discriminate. }
  destruct (was_modified_since lib (META request !! "HTTP_IF_MODIFIED_SINCE"%string)
              (st_mtime (st n)) (st_size (st n))) eqn:Hmod.
  2:{ rewrite (serve_not_modified lib conf fs request path n Hn Hmod) in Hserve.
      injection Hserve as <-. discriminate. }
  rewrite (serve_modified lib conf fs request path n Hn Hmod) in Hserve.
  unfold send, delegate in Hserve. rewrite Hdebug in Hserve.
  destruct (truthy (SENDFILE_ROOT conf)) eqn:Hroot.
  - destruct (startswith path (SENDFILE_ROOT conf)) eqn:Hstart;
      cbn [negb mbind result_bind] in Hserve; [|discriminate].
    injection Hserve as <-.
    destruct (static_headers_status lib (st n) (snd (guess_type lib path))
      (setitem (HttpResponse "" (or_else (fst (guess_type lib path))
                                         "application/octet-stream"))
               (SENDFILE_HEADER conf)
               (HStr (slice_from (String.length (SENDFILE_ROOT conf)) path))))
      as [_ ->].
    split; [reflexivity|]. eexists. split.
    + rewrite static_headers_other by assumption. apply getitem_setitem.
    + now apply startswith_slice.
  - cbn [mbind result_bind] in Hserve. injection Hserve as <-.
    destruct (static_headers_status lib (st n) (snd (guess_type lib path))
      (setitem (HttpResponse "" (or_else (fst (guess_type lib path))
                                         "application/octet-stream"))
               (SENDFILE_HEADER conf) (HStr path)))
      as [_ ->].
    split; [reflexivity|]. exists path. split.
    + rewrite static_headers_other by assumption. apply getitem_setitem.
    + destruct (SENDFILE_ROOT conf); [reflexivity|discriminate].
Qed.

End ServingMore.

Section DebugResponse.
Import Os Django Views Reference Examples.

Lemma delegation_header_completes_root_witness :
  (DEBUG production = false /\
   own_header_name (SENDFILE_HEADER production)) /\
  exists r,
    serve_private_media stock production disk plain_get "/data/a/x.jpg" = Ok r /\
    status_code r = 200%Z /\
    content r = ""%string /\
    exists v,
      getitem r (SENDFILE_HEADER production) = Some (HStr v) /\
      (SENDFILE_ROOT production ++ v)%string = "/data/a/x.jpg"%string.
Proof.
  assert (Hown : own_header_name (SENDFILE_HEADER production)).
  { repeat split; vm_compute; discriminate. }
  split; [split; [reflexivity|exact Hown]|].
  destruct (serve_private_media stock production disk plain_get "/data/a/x.jpg")
    as [r|e] eqn:Hserve; [|vm_compute in Hserve; discriminate].
  assert (Hstatus : status_code r = 200%Z).
  { vm_compute in Hserve. injection Hserve as <-. reflexivity. }
  exists r. split; [reflexivity|]. split; [exact Hstatus|].
  exact (delegation_header_completes_root stock production disk plain_get
           "/data/a/x.jpg" r eq_refl Hown Hserve Hstatus).
Defined.

Lemma static_headers_has_other lib statobj encoding r h :
  own_header_name h ->
  has_header (static_headers lib statobj encoding r) h = has_header r h.
Proof.
  intros (Hlm & Hcl & Hce). unfold static_headers.
  destruct (S_ISREG _), encoding as [e|]; try destruct (truthy e);
    repeat (rewrite has_header_setitem_other
              by (intros Heq; rewrite <- Heq in *; vm_compute in *; congruence));
    reflexivity.
Qed.

(** X16. In debug mode every response the call returns, the 200 as well
    as the 304, carries the content type (the sniffed type, or
    [application/octet-stream]) and, besides it, no header other than
    [Last-Modified], [Content-Length] and [Content-Encoding]: in
    particular no delegation header is ever sent. *)
Theorem debug_response_headers lib conf (fs : filesystem) request path r :
  DEBUG conf = true ->
  serve_private_media lib conf fs request path = Ok r ->
  getitem r "Content-Type" =
    Some (HStr (or_else (fst (guess_type lib path)) "application/octet-stream")) /\
  forall h, own_header_name h -> lower h <> "content-type"%string ->
            has_header r h = false.
Proof.
  intros Hdebug Hserve.
  destruct (fs !! path) as [n|] eqn:Hn.
  2:{ unfold serve_private_media, path_exists in Hserve.
      rewrite Hn in Hserve. discriminate. }
  destruct (was_modified_since lib (META request !! "HTTP_IF_MODIFIED_SINCE"%string)
              (st_mtime (st n)) (st_size (st n))) eqn:Hmod.
  - rewrite (serve_modified lib conf fs request path n Hn Hmod) in Hserve.
    unfold send, read in Hserve. rewrite Hdebug, Hn in Hserve.
    destruct (readable n); cbn [mbind result_bind] in Hserve; [|discriminate].
    injection Hserve as <-. split.
    + rewrite static_headers_other by (repeat split; vm_compute; discriminate).
      reflexivity.
    + intros h Hown Hct. rewrite static_headers_has_other by assumption.
      now apply has_header_HttpResponse.
  - rewrite (serve_not_modified lib conf fs request path n Hn Hmod) in Hserve.
    injection Hserve as <-. split; [reflexivity|].
    intros h _ Hct. unfold has_header, HttpResponseNotModified. cbn [_headers].
    rewrite lookup_singleton_ne; [reflexivity|].
    intros Heq. apply Hct. now rewrite <- Heq.
Qed.

Lemma debug_response_headers_witness :
  exists r,
    DEBUG development = true /\
    serve_private_media stock development disk plain_get "/data/a/x.jpg" = Ok r /\
    getitem r "Content-Type" = Some (HStr "image/jpeg") /\
    forall h, own_header_name h -> lower h <> "content-type"%string ->
              has_header r h = false.
Proof.
  destruct (serve_private_media stock development disk plain_get "/data/a/x.jpg")
    as [r|e] eqn:Hserve; [|vm_compute in Hserve; discriminate].
  exists r. split; [reflexivity|]. split; [reflexivity|].
  exact (debug_response_headers stock development disk plain_get
           "/data/a/x.jpg" r eq_refl Hserve).
Defined.

End DebugResponse.

(** ** More on filename sanitization *)

Section AsciifyMore.
Import Views Examples.
Local Open Scope N_scope.

Lemma bytes_of_below_256 s : Forall (fun c => c < 256) (bytes_of s).
Proof.
  induction s as [|c s IH]; simpl; constructor; [|assumption].
  apply N_ascii_bounded.
Qed.

Lemma encode_bytes_of s :
  Forall (fun c => c < 128) (bytes_of s) ->
  encode_ascii_ignore (bytes_of s) = s.
Proof.
  induction s as [|c s IH]; simpl; [reflexivity|].
  intros Hall. apply Forall_cons in Hall as [Hc Hs].
  destruct (N.ltb_spec (N_of_ascii c) 128); [|lia].
  now rewrite ascii_N_embedding, IH.
Qed.

Lemma encode_is_ascii u :
  Forall (fun c => c < 128) (bytes_of (encode_ascii_ignore u)).
Proof.
  rewrite bytes_of_encode_ascii_ignore.
  apply List.Forall_forall. intros c Hc.
  apply filter_In in Hc as [_ Hc]. now apply N.ltb_lt.
Qed.

Lemma forallb_below u :
  forallb (fun c => c <? 128) u = true <-> Forall (fun c => c < 128) u.
Proof.
  rewrite forallb_forall, List.Forall_forall.
  split; intros H c Hc; apply N.ltb_lt; auto.
Qed.

(** X17. On a byte string [asciify] raises [UnicodeDecodeError] exactly
    when the string holds a byte above 127; on a byte string of ASCII it
    does what it does on the text of the same characters. *)
Theorem asciify_byte_string normalize (b : string) :
  (asciify normalize (PyStr b) = Raise UnicodeDecodeError <->
   exists c, In c (bytes_of b) /\ 128 <= c) /\
  (Forall (fun c => c < 128) (bytes_of b) ->
   asciify normalize (PyStr b) = asciify normalize (PyUnicode (bytes_of b))).
Proof.
  unfold asciify. cbn [unicode].
  destruct (forallb (fun c => c <? 128) (bytes_of b)) eqn:Hall.
  - cbn [mbind result_bind]. split; [|reflexivity].
    split; [discriminate|].
    intros (c & Hin & Hc). rewrite forallb_forall in Hall.
    apply Hall, N.ltb_lt in Hin. lia.
  - cbn [mbind result_bind]. split.
    + split; [intros _|reflexivity].
      destruct (existsb (fun c => 128 <=? c) (bytes_of b)) eqn:Hex.
      * apply existsb_exists in Hex as (c & Hin & Hc).
        exists c. split; [assumption|now apply N.leb_le].
      * exfalso. rewrite <- not_true_iff_false in Hall. apply Hall.
        apply forallb_forall. intros c Hin. apply N.ltb_lt.
        destruct (N.leb_spec 128 c) as [Hge|Hlt]; [|assumption].
        rewrite <- not_true_iff_false in Hex. exfalso. apply Hex.
        apply existsb_exists. exists c. split; [assumption|now apply N.leb_le].
    + intros Hascii. apply forallb_below in Hascii. congruence.
Qed.

(** What [asciify] returns holds no byte above 127. *)
Lemma asciify_ok_ascii normalize v s :
  asciify normalize v = Ok s -> Forall (fun c => c < 128) (bytes_of s).
Proof.
  unfold asciify. destruct (unicode v) as [u|e]; cbn [mbind result_bind];
    [|discriminate].
  intros [= <-]. apply encode_is_ascii.
Qed.

(** X18. Whenever [asciify] returns, what it returns is pure ASCII: every
    byte is below 128, and the bytes are, in order, the code points below
    128 of the normal form of the input. *)
Theorem asciify_returns_ascii normalize v s :
  asciify normalize v = Ok s ->
  Forall (fun c => c < 128) (bytes_of s) /\
  exists u, unicode v = Ok u /\
            bytes_of s = List.filter (fun c => c <? 128) (normalize "NFKD"%string u).
Proof.
  intros Hs. split; [now apply (asciify_ok_ascii normalize v)|].
  unfold asciify in Hs. destruct (unicode v) as [u|e];
    cbn [mbind result_bind] in Hs; [|discriminate].
  injection Hs as <-. exists u. split; [reflexivity|].
  apply bytes_of_encode_ascii_ignore.
Qed.

Lemma asciify_returns_ascii_witness :
  asciify normalize_sample (PyUnicode cafe) = Ok "Cafe"%string /\
  Forall (fun c => c < 128) (bytes_of "Cafe") /\
  exists u, unicode (PyUnicode cafe) = Ok u /\
            bytes_of "Cafe" =
              List.filter (fun c => c <? 128) (normalize_sample "NFKD" u).
Proof.
  split; [reflexivity|].
  apply (asciify_returns_ascii normalize_sample (PyUnicode cafe) "Cafe").
  reflexivity.
Defined.

(** X19. [asciify] is idempotent: given that NFKD leaves ASCII text as it
    is, applying [asciify] to a result of [asciify] returns that result. *)
Theorem asciify_idempotent normalize v s :
  (forall u, Forall (fun c => c < 128) u -> normalize "NFKD"%string u = u) ->
  asciify normalize v = Ok s ->
  asciify normalize (PyStr s) = Ok s.
Proof.
  intros Hnfkd Hs.
  pose proof (asciify_ok_ascii normalize v s Hs) as Hascii.
  unfold asciify. cbn [unicode].
  rewrite (proj2 (forallb_below _) Hascii). cbn [mbind result_bind].
  rewrite Hnfkd by assumption. now rewrite encode_bytes_of.
Qed.

Lemma normalize_sample_ascii u :
  Forall (fun c => c < 128) u -> normalize_sample "NFKD" u = u.
Proof.
  intros Hu.
  change (flat_map (fun c => if c =? 233 then [101; 769] else [c]) u = u).
  induction Hu as [|c u Hc Hu IH]; [reflexivity|].
  cbn [flat_map]. destruct (N.eqb_spec c 233); [lia|].
  cbn [app]. now rewrite IH.
Qed.

Lemma asciify_idempotent_witness :
  ((forall u, Forall (fun c => c < 128) u -> normalize_sample "NFKD" u = u) /\
   asciify normalize_sample (PyUnicode cafe) = Ok "Cafe"%string) /\
  asciify normalize_sample (PyStr "Cafe") = Ok "Cafe"%string.
Proof.
  split; [split; [exact normalize_sample_ascii|reflexivity]|].
  apply (asciify_idempotent normalize_sample (PyUnicode cafe) "Cafe");
    [exact normalize_sample_ascii|reflexivity].
Defined.

End AsciifyMore.

(** ** The views *)

Section ViewObjects.
Import Os Django Views Examples Gallery Photos Site.

(** X20. [can_view_all] asks the user for the permission at most once per
    view: whatever a first call answers, every later call on the view
    answers the same and changes nothing, even if by then the request's
    user would answer differently; on a fresh view the answer is the
    user's [gallery.view] permission. *)
Theorem can_view_all_is_cached (self : view) (later : Gallery.user) :
  let '(answer, self') := can_view_all self in
  let again := {| request_user := later; _can_view_all := _can_view_all self' |} in
  can_view_all again = (answer, again) /\
  (_can_view_all self = None ->
   answer = has_perm (request_user self) "gallery.view").
Proof.
  unfold can_view_all. destruct self as [u [cached|]]; cbn.
  - split; [reflexivity|discriminate].
  - split; reflexivity.
Qed.

(** X21. [AlbumView.get_context_data] never returns a context: once the
    parent classes have produced theirs, the lookup of [album], a name the
    function never binds and the module does not define, raises
    [NameError], whether the user may view everything or not. *)
Theorem album_context_data_raises PHOTO_TITLE allowed previous next
    (self : view) (parent : result context) :
  (forall context,
     parent = Ok context ->
     fst (album_context_data PHOTO_TITLE allowed previous next self parent)
       = Raise (NameError "album")) /\
  (forall context,
     fst (album_context_data PHOTO_TITLE allowed previous next self parent)
       <> Ok context).
Proof.
  unfold album_context_data, common_context_data.
  destruct parent as [context|e]; cbn [mbind result_bind].
  - destruct (can_view_all self) as [[|] self0]; split.
    + intros context' _. reflexivity.
    + intros context'. change (Raise (NameError "album") <> Ok context').
      discriminate.
    + intros context' _. reflexivity.
    + intros context'. change (Raise (NameError "album") <> Ok context').
      discriminate.
  - split; [discriminate|]. intros context'. discriminate.
Qed.

End ViewObjects.

(** ** Album previews *)

Section Previews.
Import Os Django Views Examples Gallery Photos Site.
Context {rng : Type}.

Lemma can_view_all_again (self : view) all :
  _can_view_all self = Some all -> can_view_all self = (all, self).
Proof. intros Hc. unfold can_view_all. now rewrite Hc. Qed.

Lemma can_view_all_sets (self : view) :
  _can_view_all (snd (can_view_all self)) = Some (fst (can_view_all self)) /\
  request_user (snd (can_view_all self)) = request_user self.
Proof.
  unfold can_view_all. destruct (_can_view_all self) eqn:Hc; cbn; auto.
Qed.

Lemma attach_preview_ok (b : backend rng) viewer a (self : view) (g : rng) all :
  _can_view_all self = Some all ->
  attach_preview rng b viewer a (self, g) =
    Ok ({| photo_set := photo_set a;
           preview := Some (fst (choose rng b g (visible rng b all viewer a)
                                   (Nat.min (length (visible rng b all viewer a)) 5))) |},
        (self, snd (choose rng b g (visible rng b all viewer a)
                      (Nat.min (length (visible rng b all viewer a)) 5)))).
Proof.
  intros Hc. unfold attach_preview, random_sample.
  rewrite (can_view_all_again self all Hc). cbv zeta.
  rewrite (proj2 (Nat.leb_le _ _)) by apply Nat.le_min_l.
  cbn [mbind result_bind].
  destruct (choose rng b g _ _) as [sampled g']. reflexivity.
Qed.

Lemma attach_previews_ok (b : backend rng) viewer albums (self : view) (g : rng) all :
  _can_view_all self = Some all ->
  exists albums' g',
    attach_previews rng b viewer albums (self, g) = Ok (albums', (self, g')) /\
    Forall2 (fun a a' =>
               photo_set a' = photo_set a /\
               exists g0,
                 preview a' =
                   Some (fst (choose rng b g0 (visible rng b all viewer a)
                                (Nat.min (length (visible rng b all viewer a)) 5))))
            albums albums'.
Proof.
  intros Hc. revert g. induction albums as [|a albums IH]; intros g.
  - exists [], g. split; [reflexivity|constructor].
  - cbn [attach_previews]. rewrite (attach_preview_ok b viewer a self g all Hc).
    cbn [mbind result_bind].
    destruct (IH (snd (choose rng b g (visible rng b all viewer a)
                         (Nat.min (length (visible rng b all viewer a)) 5))))
      as (albums' & g' & Hrest & Hall).
    rewrite Hrest. cbn [mbind result_bind].
    eexists _, g'. split; [reflexivity|].
    constructor; [|exact Hall]. split; [reflexivity|]. now exists g.
Qed.

(** X22. The preview step never asks [random.sample] for more photos than
    there are: given a context whose [object_list] holds albums, and a
    user that can be loaded, the call returns; it returns the same
    context with, under [object_list], as many albums as before, each with
    its photos unchanged and a preview attached. *)
Theorem preview_context_data_returns (b : backend rng) (self : view) (g : rng)
    (context : Gallery.context) albums viewer :
  context !! "object_list"%string = Some (VAlbums albums) ->
  (if negb (fst (can_view_all self)) && is_authenticated (request_user self)
   then reload_user rng b (request_user self)
   else Ok (request_user self)) = Ok viewer ->
  exists albums' state,
    preview_context_data rng b self g (Ok context) =
      Ok (<["object_list"%string := VAlbums albums']> context, state) /\
    Forall2 (fun a a' => photo_set a' = photo_set a /\ is_Some (preview a'))
            albums albums'.
Proof.
  intros Hlist Hviewer. unfold preview_context_data. cbn [mbind result_bind].
  destruct (can_view_all_sets self) as [Hcache _].
  destruct (can_view_all self) as [all self1]. cbn [fst snd] in *.
  rewrite Hviewer. cbn [mbind result_bind]. rewrite Hlist.
  destruct (attach_previews_ok b viewer albums self1 g all Hcache)
    as (albums' & g' & Hloop & Hall).
  rewrite Hloop. cbn [mbind result_bind].
  eexists albums', _. split; [reflexivity|].
  eapply Forall2_impl; [exact Hall|].
  intros a a' (Hset & g0 & Hpv). split; [exact Hset|]. rewrite Hpv. eauto.
Qed.

(** X23. Previews show only what the user may see.  Provided
    [random.sample] returns as many elements as asked for, all taken from
    the population, every album of the returned context has a preview of
    at most five photos, all of them photos of the album, and, when the
    user lacks the permission to view everything, all of them photos that
    [is_allowed_for_user] grants to the user. *)
Theorem previews_show_allowed_photos (b : backend rng) (self : view) (g : rng)
    (context context' : Gallery.context) albums viewer state :
  (forall g l k, k <= length l ->
     length (fst (choose rng b g l k)) = k /\
     forall p, In p (fst (choose rng b g l k)) -> In p l) ->
  context !! "object_list"%string = Some (VAlbums albums) ->
  (if negb (fst (can_view_all self)) && is_authenticated (request_user self)
   then reload_user rng b (request_user self)
   else Ok (request_user self)) = Ok viewer ->
  preview_context_data rng b self g (Ok context) = Ok (context', state) ->
  exists albums',
    context' !! "object_list"%string = Some (VAlbums albums') /\
    Forall2 (fun a a' =>
               exists shown,
                 preview a' = Some shown /\
                 length shown <= 5 /\
                 forall p, In p shown ->
                   In p (photo_set a) /\
                   (fst (can_view_all self) = false ->
                    is_allowed_for_user rng b p viewer = true))
            albums albums'.
Proof.
  intros Hsample Hlist Hviewer. unfold preview_context_data.
  cbn [mbind result_bind].
  destruct (can_view_all_sets self) as [Hcache _].
  destruct (can_view_all self) as [all self1]. cbn [fst snd] in *.
  rewrite Hviewer. cbn [mbind result_bind]. rewrite Hlist.
  destruct (attach_previews_ok b viewer albums self1 g all Hcache)
    as (albums' & g' & Hloop & Hall).
  rewrite Hloop. cbn [mbind result_bind]. intros [= <- <-].
  exists albums'. split; [apply lookup_insert_eq|].
  eapply Forall2_impl; [exact Hall|].
  intros a a' (Hset & g0 & Hpv). eexists. split; [exact Hpv|].
  destruct (Hsample g0 (visible rng b all viewer a)
              (Nat.min (length (visible rng b all viewer a)) 5)
              (Nat.le_min_l _ _)) as [Hlen Hin].
  split; [rewrite Hlen; apply Nat.le_min_r|].
  intros p Hp. apply Hin in Hp. unfold visible in Hp.
  destruct all.
  - split; [exact Hp|discriminate].
  - apply filter_In in Hp as [Hp Hallowed]. split; [exact Hp|now intros _].
Qed.

End Previews.

Section PreviewWitnesses.
Import Os Django Views Examples Gallery Photos Site.

Lemma preview_context_data_returns_witness :
  (front_page !! "object_list"%string = Some (VAlbums [holidays]) /\
   (if negb (fst (can_view_all (mkView member None))) &&
       is_authenticated (request_user (mkView member None))
    then reload_user unit first_come (request_user (mkView member None))
    else Ok (request_user (mkView member None))) = Ok member) /\
  exists albums' state,
    preview_context_data unit first_come (mkView member None) tt (Ok front_page) =
      Ok (<["object_list"%string := VAlbums albums']> front_page, state) /\
    Forall2 (fun a a' => photo_set a' = photo_set a /\ is_Some (preview a'))
            [holidays] albums'.
Proof.
  split; [split; reflexivity|].
  apply (preview_context_data_returns first_come (mkView member None) tt
           front_page [holidays] member); reflexivity.
Defined.

Lemma previews_show_allowed_photos_witness :
  exists context' state,
    preview_context_data unit first_come (mkView member None) tt (Ok front_page)
      = Ok (context', state) /\
    exists albums',
      context' !! "object_list"%string = Some (VAlbums albums') /\
      Forall2 (fun a a' =>
                 exists shown,
                   preview a' = Some shown /\
                   length shown <= 5 /\
                   forall p, In p shown ->
                     In p (photo_set a) /\
                     (fst (can_view_all (mkView member None)) = false ->
                      is_allowed_for_user unit first_come p member = true))
              [holidays] albums'.
Proof.
  destruct (preview_context_data unit first_come (mkView member None) tt
              (Ok front_page)) as [[context' state]|e] eqn:Hcall;
    [|vm_compute in Hcall; discriminate].
  exists context', state. split; [reflexivity|].
  apply (previews_show_allowed_photos first_come (mkView member None) tt
           front_page context' [holidays] member state);
    [|reflexivity|reflexivity|exact Hcall].
  intros g l k Hk. cbn [first_come choose fst]. split.
  - rewrite length_firstn. lia.
  - intros p Hp. rewrite <- (firstn_skipn k l). apply in_or_app. now left.
Defined.

End PreviewWitnesses.

(** ** Serving photos *)

Section PhotoAccess.
Import Os Django Views Examples Gallery Photos Site.

(** The two outcomes of the photo query: a photo of the table that the
    user may see, or the one error. *)
Lemma get_photo_cases (db : models) (request : web_request) (pk : Z) :
  (forall p,
     _get_photo_if_allowed db request pk = Ok p ->
     Photo_objects db !! pk = Some p /\
     (has_perm (user request) "gallery.view" = true \/
      allowed_for_user db (user request) p = true)) /\
  (forall e,
     _get_photo_if_allowed db request pk = Raise e ->
     e = Http404 "No Photo matches the given query.").
Proof.
  unfold _get_photo_if_allowed, get_object_or_404.
  destruct (has_perm (user request) "gallery.view") eqn:Hperm; cbn [negb].
  - split.
    + intros p. destruct (Photo_objects db !! pk) as [q|]; [|discriminate].
      intros [= ->]. split; [reflexivity|now left].
    + intros e. destruct (Photo_objects db !! pk); [discriminate|].
      now intros [= <-].
  - split.
    + intros p.
      destruct (filter _ (Photo_objects db) !! pk) as [q|] eqn:Hq; [|discriminate].
      apply map_lookup_filter_Some in Hq as [Hq Hallowed]. cbn [snd] in Hallowed.
      intros [= ->]. split; [exact Hq|now right].
    + intros e. destruct (filter _ (Photo_objects db) !! pk); [discriminate|].
      now intros [= <-].
Qed.

(** X24. [_get_photo_if_allowed] returns a photo exactly when the table
    holds one under that key and the user either has the [gallery.view]
    permission or is allowed that photo; in every other case it raises
    [Http404] with one fixed message, the same for a photo that is missing
    and for a photo that is refused. *)
Theorem get_photo_if_allowed_grants (db : models) (request : web_request)
    (pk : Z) :
  (forall p,
     _get_photo_if_allowed db request pk = Ok p <->
     Photo_objects db !! pk = Some p /\
     (has_perm (user request) "gallery.view" = true \/
      allowed_for_user db (user request) p = true)) /\
  (forall e,
     _get_photo_if_allowed db request pk = Raise e ->
     e = Http404 "No Photo matches the given query.").
Proof.
  destruct (get_photo_cases db request pk) as [Hok Hraise].
  split; [|exact Hraise].
  intros p. split; [apply Hok|].
  intros [Hp Hmay]. unfold _get_photo_if_allowed, get_object_or_404.
  destruct (has_perm (user request) "gallery.view") eqn:Hperm; cbn [negb].
  - now rewrite Hp.
  - destruct Hmay as [Habs|Hallowed]; [discriminate|].
    assert (Hsome : filter (fun kp => allowed_for_user db (user request) kp.2 = true)
                      (Photo_objects db) !! pk = Some p)
      by (apply map_lookup_filter_Some; split; assumption).
    now rewrite Hsome.
Qed.

(** X25. [original_photo] answers with a response only for a photo the
    table holds and the user may see, and whose file exists.  The response
    is the one [serve_private_media] gives for the photo's path, with one
    header set besides: [Content-Disposition], which is
    [inline; filename=NAME;] where NAME is the sanitized file name, pure
    ASCII. *)
Theorem original_photo_response lib normalize conf (db : models)
    (fs : filesystem) (request : web_request) (pk : string) r :
  original_photo lib normalize conf db fs request pk = Ok r ->
  exists k p served name,
    int db pk = Ok k /\
    Photo_objects db !! k = Some p /\
    (has_perm (user request) "gallery.view" = true \/
     allowed_for_user db (user request) p = true) /\
    path_exists fs (abspath p) = true /\
    serve_private_media lib conf fs (http request) (abspath p) = Ok served /\
    asciify normalize (filename p) = Ok name /\
    Forall (fun c => (c < 128)%N) (bytes_of name) /\
    getitem r "Content-Disposition" =
      Some (HStr ("inline; filename=" ++ name ++ ";")) /\
    status_code r = status_code served /\
    content r = content served /\
    forall h, lower h <> "content-disposition"%string ->
              getitem r h = getitem served h.
Proof.
  unfold original_photo. intros Hcall.
  destruct (int db pk) as [k|e]; cbn [mbind result_bind] in Hcall; [|discriminate].
  destruct (_get_photo_if_allowed db request k) as [p|e] eqn:Hget;
    cbn [mbind result_bind] in Hcall; [|discriminate].
  apply (proj1 (get_photo_cases db request k)) in Hget as [Hp Hmay].
  destruct (serve_private_media lib conf fs (http request) (abspath p))
    as [served|e] eqn:Hserve; cbn [mbind result_bind] in Hcall; [|discriminate].
  destruct (asciify normalize (filename p)) as [name|e] eqn:Hname;
    cbn [mbind result_bind] in Hcall; [|discriminate].
  injection Hcall as <-.
  exists k, p, served, name.
  split; [reflexivity|]. split; [exact Hp|]. split; [exact Hmay|].
  split.
  { destruct (path_exists fs (abspath p)) eqn:Hex; [reflexivity|].
    unfold serve_private_media in Hserve. rewrite Hex in Hserve. discriminate. }
  split; [first [reflexivity | exact Hserve]|].
  split; [first [reflexivity | exact Hname]|].
  split; [apply (asciify_ok_ascii normalize _ _ Hname)|].
  split; [apply getitem_setitem|].
  split; [reflexivity|]. split; [reflexivity|].
  intros h Hh. apply getitem_setitem_other. intros Heq. apply Hh. now rewrite <- Heq.
Qed.

End PhotoAccess.

Section PhotoResponses.
Import Os Django Views Examples Gallery Photos Site.

Lemma original_photo_response_witness :
  exists r,
    original_photo stock normalize_sample production archive disk by_member "1"
      = Ok r /\
    exists k p served name,
      int archive "1" = Ok k /\
      Photo_objects archive !! k = Some p /\
      (has_perm (user by_member) "gallery.view" = true \/
       allowed_for_user archive (user by_member) p = true) /\
      path_exists disk (abspath p) = true /\
      serve_private_media stock production disk (http by_member) (abspath p)
        = Ok served /\
      asciify normalize_sample (filename p) = Ok name /\
      Forall (fun c => (c < 128)%N) (bytes_of name) /\
      getitem r "Content-Disposition" =
        Some (HStr ("inline; filename=" ++ name ++ ";")) /\
      status_code r = status_code served /\
      content r = content served /\
      forall h, lower h <> "content-disposition"%string ->
                getitem r h = getitem served h.
Proof.
  destruct (original_photo stock normalize_sample production archive disk
              by_member "1") as [r|e] eqn:Hcall;
    [|vm_compute in Hcall; discriminate].
  exists r. split; [reflexivity|].
  exact (original_photo_response stock normalize_sample production archive disk
           by_member "1" r Hcall).
Defined.

(** X26. A user who may not see a photo cannot have a thumbnail made of
    it: when the key names no photo, or a photo that the user, lacking the
    [gallery.view] permission, is not allowed, [resized_photo] raises
    [Http404] and leaves the filesystem as it was. *)
Theorem resized_photo_refused lib normalize conf presets (db : models)
    (fs : filesystem) (request : web_request) (preset pk : string) (k : Z) :
  int db pk = Ok k ->
  (Photo_objects db !! k = None \/
   exists p, Photo_objects db !! k = Some p /\
             has_perm (user request) "gallery.view" = false /\
             allowed_for_user db (user request) p = false) ->
  resized_photo lib normalize conf presets db fs request preset pk =
    (Raise (Http404 "No Photo matches the given query."), fs).
Proof.
  intros Hint Hrefused. unfold resized_photo. rewrite Hint.
  cbn [mbind result_bind].
  destruct (_get_photo_if_allowed db request k) as [p|e] eqn:Hget.
  - exfalso.
    apply (proj1 (get_photo_cases db request k)) in Hget as [Hp Hmay].
    destruct Hrefused as [Hnone|(q & Hq & Hperm & Hallowed)]; [congruence|].
    assert (q = p) by congruence. subst q.
    destruct Hmay; congruence.
  - apply (proj2 (get_photo_cases db request k)) in Hget.
    now subst e.
Qed.

Lemma resized_photo_refused_witness :
  (int archive "2" = Ok 2%Z /\
   (Photo_objects archive !! 2%Z = None \/
    exists p, Photo_objects archive !! 2%Z = Some p /\
              has_perm (user by_member) "gallery.view" = false /\
              allowed_for_user archive (user by_member) p = false)) /\
  resized_photo stock normalize_sample production presets archive disk
    by_member "thumb" "2" =
    (Raise (Http404 "No Photo matches the given query."), disk).
Proof.
  assert (Hrefused :
    Photo_objects archive !! 2%Z = None \/
    exists p, Photo_objects archive !! 2%Z = Some p /\
              has_perm (user by_member) "gallery.view" = false /\
              allowed_for_user archive (user by_member) p = false).
  { right. exists party. repeat split; reflexivity. }
  split; [split; [reflexivity|exact Hrefused]|].
  exact (resized_photo_refused stock normalize_sample production presets archive
           disk by_member "thumb" "2" 2%Z eq_refl Hrefused).
Defined.

(** X27. When [resized_photo] answers with a response, the photo is one
    the user may see, the file served is the thumbnail the data layer gave
    for the preset, read from the filesystem as the data layer left it,
    and the download name is the sanitized file name with
    [_WIDTHxHEIGHT] of the preset put before its extension. *)
Theorem resized_photo_response lib normalize conf presets (db : models)
    (fs : filesystem) (request : web_request) (preset pk : string) r :
  fst (resized_photo lib normalize conf presets db fs request preset pk) = Ok r ->
  exists k p path fs' served name width height crop,
    int db pk = Ok k /\
    Photo_objects db !! k = Some p /\
    (has_perm (user request) "gallery.view" = true \/
     allowed_for_user db (user request) p = true) /\
    thumbnail db p preset fs = (Ok path, fs') /\
    snd (resized_photo lib normalize conf presets db fs request preset pk) = fs' /\
    serve_private_media lib conf fs' (http request) path = Ok served /\
    asciify normalize (filename p) = Ok name /\
    presets !! preset = Some (width, height, crop) /\
    getitem r "Content-Disposition" =
      Some (HStr ("inline; filename=" ++
                  (fst (splitext name) ++ "_" ++ str width ++ "x" ++
                   str height ++ snd (splitext name)) ++ ";")) /\
    status_code r = status_code served /\
    content r = content served.
Proof.
  unfold resized_photo. intros Hcall.
  destruct (int db pk) as [k|e]; cbn [mbind result_bind] in Hcall |- *;
    [|discriminate].
  destruct (_get_photo_if_allowed db request k) as [p|e] eqn:Hget;
    [|discriminate].
  apply (proj1 (get_photo_cases db request k)) in Hget as [Hp Hmay].
  destruct (thumbnail db p preset fs) as [[path|e] fs'] eqn:Hthumb;
    [|discriminate].
  cbn [fst snd] in Hcall |- *.
  destruct (serve_private_media lib conf fs' (http request) path)
    as [served|e] eqn:Hserve; cbn [mbind result_bind] in Hcall; [|discriminate].
  destruct (asciify normalize (filename p)) as [name|e] eqn:Hname;
    cbn [mbind result_bind] in Hcall; [|discriminate].
  destruct (presets !! preset) as [[[width height] crop]|] eqn:Hpreset.
  2:{ destruct (splitext name). discriminate. }
  exists k, p, path, fs', served, name, width, height, crop.
  destruct (splitext name) as [root ext].
  cbn [mbind result_bind fst snd] in Hcall |- *. injection Hcall as <-.
  repeat (split; [first [reflexivity | assumption]|]).
  split; [apply getitem_setitem|]. split; reflexivity.
Qed.

Lemma resized_photo_response_witness :
  exists r,
    fst (resized_photo stock normalize_sample production presets archive disk
           by_curator "thumb" "1") = Ok r /\
    getitem r "Content-Disposition" =
      Some (HStr "inline; filename=plage_128x128.jpg;").
Proof.
  destruct (fst (resized_photo stock normalize_sample production presets archive
                   disk by_curator "thumb" "1")) as [r|e] eqn:Hcall;
    [|vm_compute in Hcall; discriminate].
  exists r. split; [reflexivity|].
  destruct (resized_photo_response stock normalize_sample production presets
              archive disk by_curator "thumb" "1" r Hcall)
    as (k & p & path & fs' & served & name & width & height & crop &
        Hint & Hp & _ & _ & _ & _ & Hname & Hpreset & Hheader & _).
  injection Hint as <-. injection Hp as <-.
  injection Hname as <-. injection Hpreset as <- <- <-.
  exact Hheader.
Defined.

End PhotoResponses.

(** ** Splitting a file name *)

Section Splitext.
Import Views Photos.

Lemma substring_slice n p :
  (String.substring 0 n p ++ slice_from n p)%string = p.
Proof.
  revert p. induction n as [|n IH]; intros [|c p]; try reflexivity.
  change (String c (String.substring 0 n p ++ slice_from n p)%string = String c p).
  now rewrite IH.
Qed.

Lemma append_empty (p : string) : (p ++ "")%string = p.
Proof.
  induction p as [|c p IH]; [reflexivity|].
  change (String c (p ++ "")%string = String c p). now rewrite IH.
Qed.

Lemma rfind_from_found c s :
  forall i last,
    rfind_from c s i last = last \/
    ((i <= rfind_from c s i last)%Z /\
     String.get (Z.to_nat (rfind_from c s i last - i)) s = Some c).
Proof.
  induction s as [|d s IH]; intros i last; [now left|].
  cbn [rfind_from].
  destruct (IH (i + 1)%Z (if Ascii.eqb d c then i else last)) as [Heq|[Hle Hget]].
  - rewrite Heq. destruct (Ascii.eqb_spec d c) as [->|Hne]; [|now left].
    right. split; [lia|]. now rewrite Z.sub_diag.
  - right. split; [lia|].
    set (r := rfind_from c s (i + 1) (if Ascii.eqb d c then i else last)) in *.
    replace (Z.to_nat (r - i)) with (S (Z.to_nat (r - (i + 1)))) by lia.
    exact Hget.
Qed.

Lemma get_slice n s c :
  String.get n s = Some c -> exists t, slice_from n s = String c t.
Proof.
  revert s. induction n as [|n IH]; intros [|d s]; cbn; try discriminate.
  - intros [= ->]. now exists s.
  - apply IH.
Qed.

(** X28. [splitext] loses nothing and invents nothing: root and extension
    put together give the name back, and the extension is empty or starts
    with a dot. *)
Theorem splitext_rejoins (p : string) :
  (fst (splitext p) ++ snd (splitext p))%string = p /\
  (snd (splitext p) = ""%string \/
   exists t, snd (splitext p) = String "." t).
Proof.
  unfold splitext.
  destruct (_ && _) eqn:Hsplit; cbn [fst snd].
  - split; [apply substring_slice|]. right.
    apply andb_true_iff in Hsplit as [Hgt _]. apply Z.gtb_lt in Hgt.
    unfold rfind in *.
    destruct (rfind_from_found "." p 0 (-1)) as [Heq|[Hle Hget]].
    + pose proof (rfind_from_found "/" p 0 (-1)) as [Hs|[Hs _]]; lia.
    + rewrite Z.sub_0_r in Hget. now apply get_slice.
  - split; [apply append_empty|now left].
Qed.

End Splitext.

(** ** Delegation and file contents *)

Section Delegation.
Import Os Django Views Reference Examples Studio.

(** X29. Outside debug mode the call never reads the file: on two
    filesystems that give the same metadata for the path, whatever bytes
    they hold there, it does the same. *)
Theorem delegation_never_reads_file lib conf (fs fs' : filesystem)
    request path :
  DEBUG conf = false ->
  st <$> fs !! path = st <$> fs' !! path ->
  serve_private_media lib conf fs request path =
  serve_private_media lib conf fs' request path.
Proof.
  intros Hdebug Hstat. unfold serve_private_media, path_exists, stat, send.
  rewrite Hdebug.
  destruct (fs !! path) as [n|], (fs' !! path) as [n'|];
    cbn in Hstat; try discriminate; [|reflexivity].
  injection Hstat as ->. reflexivity.
Qed.

Lemma delegation_never_reads_file_witness :
  (DEBUG production = false /\
   st <$> disk !! "/data/a/x.jpg"%string =
   st <$> (<["/data/a/x.jpg"%string := regular 30 "PHOTO"]> disk : filesystem)
            !! "/data/a/x.jpg"%string) /\
  serve_private_media stock production disk plain_get "/data/a/x.jpg" =
  serve_private_media stock production
    (<["/data/a/x.jpg"%string := regular 30 "PHOTO"]> disk) plain_get
    "/data/a/x.jpg".
Proof.
  split; [split; reflexivity|].
  apply (delegation_never_reads_file stock production disk
           (<["/data/a/x.jpg"%string := regular 30 "PHOTO"]> disk)
           plain_get "/data/a/x.jpg"); reflexivity.
Defined.

End Delegation.
